(** * kreds/strategy-oidc: the OpenID Connect strategy of [src/index.ts]

    A shallow embedding of the class [OIDCAuthenticationStrategy] and of the
    parts of the JavaScript runtime it calls (truthiness, the [in] operator,
    [URL] and [URLSearchParams], [fetch], [Date]), followed by the theorems
    about its behaviour.

    Strings are sequences of bytes (UTF-8); time values are integers
    (milliseconds since the epoch); JavaScript numbers that the declared
    types make integral ([expires_in]) are integers. *)

From Stdlib Require Import ZArith Ascii String List Lia.
From stdpp Require Import base option gmap strings list.

Open Scope string_scope.
Open Scope Z_scope.

(** ** JavaScript values, as far as a payload can be one *)

Module JS.

(** A value the host can put into [context.payload].  Objects carry
    string-valued own properties, as the members of
    [OIDCAuthenticationPayload] do. *)
Inductive Value :=
| Undefined
| Null
| Boolean (b : bool)
| Number (n : Z)
| NaN
| Str (s : string)
| Object (props : gmap string string).

(** What [throw] carries and what a rejected promise is rejected with. *)
Inductive Exception :=
| Error (message : string)
| TypeError (message : string)
| SyntaxError (message : string)
| Thrown (what : string).

(** [ToBoolean]: the truthiness tested by [!v] and [if (v)]. *)
Definition ToBoolean (v : Value) : bool :=
  match v with
  | Undefined | Null | NaN => false
  | Boolean b => b
  | Number n => negb (n =? 0)
  | Str s => negb (String.eqb s "")
  | Object _ => true
  end.

(** Truthiness of an optional string property ([string | undefined]). *)
Definition truthy (s : option string) : bool :=
  match s with
  | None => false
  | Some s => negb (String.eqb s "")
  end.

(** [k in v]: a [TypeError] unless [v] is an object. *)
Definition has_property (k : string) (v : Value) : Exception + bool :=
  match v with
  | Object props => inr (bool_decide (is_Some (props !! k)))
  | _ => inl (TypeError "Cannot use 'in' operator to search for a key in a primitive")
  end.

(** [(v as any).k], converted to a string as [URLSearchParams] does with
    the values of its initialiser. *)
Definition get_property (k : string) (v : Value) : string :=
  match v with
  | Object props => default "undefined" (props !! k)
  | _ => "undefined"
  end.

(** [a.join(sep)] on an array of strings. *)
Definition join (sep : string) (a : list string) : string :=
  String.concat sep a.

End JS.

(** ** application/x-www-form-urlencoded serialisation *)

Module FormUrlEncoded.

Definition is_alphanumeric (c : ascii) : bool :=
  let n := N_of_ascii c in
  ((48 <=? n) && (n <=? 57) || (65 <=? n) && (n <=? 90)
   || (97 <=? n) && (n <=? 122))%N.

(** Bytes left as they are: alphanumerics and [*-._]. *)
Definition is_plain (c : ascii) : bool :=
  is_alphanumeric c
  || Ascii.eqb c "*" || Ascii.eqb c "-" || Ascii.eqb c "." || Ascii.eqb c "_".

Definition hex_digit (n : N) : ascii :=
  if (n <? 10)%N then ascii_of_N (48 + n) else ascii_of_N (55 + n).

Definition percent_encode (c : ascii) : string :=
  let n := N_of_ascii c in
  String "%" (String (hex_digit (n / 16)) (String (hex_digit (n mod 16)) "")).

Fixpoint encode (s : string) : string :=
  match s with
  | EmptyString => ""
  | String c rest =>
      (if Ascii.eqb c " " then "+"
       else if is_plain c then String c ""
       else percent_encode c) ++ encode rest
  end.

Definition serialize (l : list (string * string)) : string :=
  String.concat "&" (map (fun kv => encode (fst kv) ++ "=" ++ encode (snd kv)) l).

End FormUrlEncoded.

(** ** URL objects *)

(** A [URLSearchParams] object: its list of name-value pairs. *)
Abbreviation URLSearchParams := (list (string * string)).

Module URL.

(** A parsed URL: the serialisation of scheme, authority and path, the
    query and the fragment (absent or a string each), and the list of the
    [searchParams] object made from the query when the URL was parsed. *)
Record t := mk {
  base : string;
  query : option string;
  fragment : option string;
  searchParams : URLSearchParams;
}.

(** [url.href]: the URL serialiser. *)
Definition href (u : t) : string :=
  base u
  ++ match query u with Some q => "?" ++ q | None => "" end
  ++ match fragment u with Some f => "#" ++ f | None => "" end.

(** [url.searchParams.append(name, value)]: the pair goes to the end of
    the list, and the query becomes the serialisation of the list. *)
Definition append (name value : string) (u : t) : t :=
  let l := (searchParams u ++ [(name, value)])%list in
  let q := FormUrlEncoded.serialize l in
  {| base := base u;
     query := if String.eqb q "" then None else Some q;
     fragment := fragment u;
     searchParams := l |}.

End URL.

(** ** Dates

    Time values and the abstract operations of ECMA-262 on them ([Day],
    [HourFromTime], ..., [MakeTime], [MakeDate], [TimeClip],
    [LocalTime], [UTC]), and the two methods of [Date.prototype] the
    strategy calls. *)

Module Date.

(** The time value of a [Date] object; [Invalid] is the NaN time value. *)
Inductive t :=
| TimeValue (ms : Z)
| Invalid.

Definition msPerSecond : Z := 1000.
Definition msPerMinute : Z := 60000.
Definition msPerHour : Z := 3600000.
Definition msPerDay : Z := 86400000.

Definition Day (t : Z) : Z := t / msPerDay.
Definition HourFromTime (t : Z) : Z := (t / msPerHour) mod 24.
Definition MinFromTime (t : Z) : Z := (t / msPerMinute) mod 60.
Definition SecFromTime (t : Z) : Z := (t / msPerSecond) mod 60.
Definition msFromTime (t : Z) : Z := t mod msPerSecond.

Definition MakeTime (hour min sec ms : Z) : Z :=
  hour * msPerHour + min * msPerMinute + sec * msPerSecond + ms.
Definition MakeDate (day time : Z) : Z := day * msPerDay + time.

Definition TimeClip (time : Z) : t :=
  if 8640000000000000 <? Z.abs time then Invalid else TimeValue time.

Section LocalTime.
(** [LocalTZA t isUTC]: the offset of local time from UTC, in
    milliseconds, at the UTC time [t] ([isUTC = true]) or at the local
    time [t] ([isUTC = false]). *)
Variable LocalTZA : Z -> bool -> Z.

Definition LocalTime (t : Z) : Z := t + LocalTZA t true.
Definition UTC (t : Z) : Z := t - LocalTZA t false.

(** [d.getSeconds()] of a valid date. *)
Definition getSeconds (t : Z) : Z := SecFromTime (LocalTime t).

(** [d.setSeconds(sec)] of a valid date: the new time value. *)
Definition setSeconds (t : Z) (sec : Z) : Date.t :=
  let t := LocalTime t in
  let date :=
    MakeDate (Day t) (MakeTime (HourFromTime t) (MinFromTime t) sec (msFromTime t)) in
  TimeClip (UTC date).

End LocalTime.


End Date.


(** ** Data model of [src/index.ts] *)

(** [config.client] *)
Module Client.
Record t := mk {
  id : string;
  secret : string;
  redirectUrl : string;
  scopes : list string;
}.
End Client.

(** [interface Token] *)
Module Token.
Record t := mk {
  access_token : string;
  refresh_token : option string;
  token_type : string;
  expires_in : Z;
  scope : string;
}.
End Token.

(** [interface OIDCUserAddress] *)
Module OIDCUserAddress.
Record t := mk {
  formatted : option string;
  street_address : option string;
  locality : option string;
  region : option string;
  postal_code : option string;
  country : option string;
}.
End OIDCUserAddress.

(** [interface OIDCUserInfo] *)
Module OIDCUserInfo.
Record t := mk {
  sub : string;
  name : option string;
  given_name : option string;
  family_name : option string;
  middle_name : option string;
  nickname : option string;
  preferred_username : option string;
  profile : option string;
  picture : option string;
  website : option string;
  email : option string;
  email_verified : option bool;
  gender : option string;
  birthdate : option string;
  zoneinfo : option string;
  locale : option string;
  phone_number : option string;
  phone_number_verified : option bool;
  address : option OIDCUserAddress.t;
  updated_at : option Z;
}.
End OIDCUserInfo.

(** [interface Data]: what the verify function receives. *)
Module Data.
Record t := mk {
  token : Token.t;
  userInfo : OIDCUserInfo.t;
  expiresAt : option Date.t;
}.
End Data.

(** [interface OpenIDConfiguration]; [empty] is the object [{}]. *)
Module OpenIDConfiguration.
Record t := mk {
  authorization_endpoint : option string;
  token_endpoint : option string;
  userinfo_endpoint : option string;
}.
Definition empty : t := mk None None None.
End OpenIDConfiguration.

(** Modelled from the spec: [KredsContext], [KredsClientAction] and
    [KredsAuthenticationOutcome] are declared in the package
    [@kreds/types], which is not part of the repository.  The context
    exposes an optional [payload]; a client action is
    [{type, url}]; an outcome is either [{done: false, action}] or whatever
    the host's verify function returns, a value of a type [V] the strategy
    never looks into. *)
Record KredsContext := { payload : JS.Value }.

Record KredsClientAction := {
  action_type : string;
  action_url : option string;
}.

Inductive KredsAuthenticationOutcome (V : Type) :=
| NotDone (action : KredsClientAction)
| FromVerify (v : V).
Arguments NotDone {V} action.
Arguments FromVerify {V} v.

(** [interface OIDCAuthenticationStrategyConfig]; [verify] may throw, and
    may return nothing ([None] is [undefined]), as the return type of
    [authenticate], which hands its result on, allows. *)
Module Config.
Record t (V : Type) := mk {
  client : Client.t;
  serverUrl : string;
  verify : KredsContext -> Data.t
           -> JS.Exception + option (KredsAuthenticationOutcome V);
}.
Arguments client {V} _.
Arguments serverUrl {V} _.
Arguments verify {V} _ _ _.
End Config.

(** ** The runtime: network, clock, parsers *)

(** The second argument of [fetch], and its first. *)
Record Request := {
  req_url : string;
  req_method : string;
  req_headers : list (string * string);
  req_body : option URLSearchParams;
}.

Record Response := {
  res_status : Z;
  res_body : string;
}.

(** What a call of the strategy does to the world, in order. *)
Inductive Event :=
| Fetch (req : Request)
| ConsoleTrace (err : JS.Exception)
| Verify (context : KredsContext) (data : Data.t).

(** Everything the strategy asks of its environment.  [fetch] and the
    clock may answer differently as the events so far differ;
    [res.json()] is typed by the place that calls it, as the source's
    declared types have it, and rejects when the body does not decode. *)
Record Runtime := {
  new_URL : string -> option string -> JS.Exception + URL.t;
  fetch : list Event -> Request -> JS.Exception + Response;
  json_OpenIDConfiguration : Response -> JS.Exception + OpenIDConfiguration.t;
  json_Token : Response -> JS.Exception + Token.t;
  json_OIDCUserInfo : Response -> JS.Exception + OIDCUserInfo.t;
  Date_now : list Event -> Z;
  LocalTZA : Z -> bool -> Z;
}.

(** ** Computations of the strategy *)

(** The mutable field [configuration] of the instance, and the events so
    far. *)
Record State := {
  configuration : OpenIDConfiguration.t;
  log : list Event;
}.

(** A computation returns a value or throws, and leaves a state: what it
    did before throwing is done. *)
Definition M (A : Type) : Type := State -> (JS.Exception + A) * State.

Definition ret {A} (a : A) : M A := fun s => (inr a, s).

Definition throw {A} (e : JS.Exception) : M A := fun s => (inl e, s).

Definition bind {A B} (m : M A) (k : A -> M B) : M B :=
  fun s =>
    match m s with
    | (inr a, s') => k a s'
    | (inl e, s') => (inl e, s')
    end.

(** [try { m } catch (err) { handler err }] *)
Definition try_catch {A} (m : M A) (handler : JS.Exception -> M A) : M A :=
  fun s =>
    match m s with
    | (inr a, s') => (inr a, s')
    | (inl e, s') => handler e s'
    end.

Definition lift {A} (r : JS.Exception + A) : M A := fun s => (r, s).

Definition emit (e : Event) : M unit :=
  fun s => (inr tt, {| configuration := configuration s; log := (log s ++ [e])%list |}).

Definition get_configuration : M OpenIDConfiguration.t :=
  fun s => (inr (configuration s), s).

Definition set_configuration (c : OpenIDConfiguration.t) : M unit :=
  fun s => (inr tt, {| configuration := c; log := log s |}).

Definition get_log : M (list Event) := fun s => (inr (log s), s).

#[global] Instance M_ret : MRet M := @ret.
#[global] Instance M_bind : MBind M := fun A B k m => bind m k.

(** ** The class [OIDCAuthenticationStrategy] *)

Inductive GrantType :=
| authorization_code
| refresh_token.

Definition GrantType_string (g : GrantType) : string :=
  match g with
  | authorization_code => "authorization_code"
  | refresh_token => "refresh_token"
  end.

Module OIDCAuthenticationStrategy.
Section Instance.

Context {V : Type}.
Variable rt : Runtime.
Variable config : Config.t V.

(** [readonly name = '-oidc'] *)
Definition name : string := "-oidc".

(** [new Error(`No OpenID configuration for strategy ${this.name}.`)] *)
Definition no_configuration : JS.Exception :=
  JS.Error ("No OpenID configuration for strategy " ++ name ++ ".").

(** The state of an instance after the constructor:
    [configuration: OpenIDConfiguration = {}], and nothing done yet. *)
Definition constructed : State :=
  {| configuration := OpenIDConfiguration.empty; log := [] |}.

(** [await fetch(url, init)] *)
Definition do_fetch (req : Request) : M Response :=
  fun s =>
    (fetch rt (log s) req,
     {| configuration := configuration s; log := (log s ++ [Fetch req])%list |}).

(** [private async init()] *)
Definition init : M unit :=
  url ← lift (new_URL rt ".well-known/openid-configuration"
                (Some (Config.serverUrl config)));
  res ← do_fetch {| req_url := URL.href url; req_method := "GET";
                    req_headers := []; req_body := None |};
  c ← lift (json_OpenIDConfiguration rt res);
  set_configuration c.

(** [private get scope()] *)
Definition scope : string :=
  JS.join " " (Client.scopes (Config.client config)).

(** [private get redirectUrl()] *)
Definition redirectUrl : M (option string) :=
  c ← get_configuration;
  let authorizeUrl := OpenIDConfiguration.authorization_endpoint c in
  if negb (JS.truthy authorizeUrl) then mret None
  else
    url ← lift (new_URL rt (default "" authorizeUrl) None);
    let url := URL.append "response_type" "code" url in
    let url := URL.append "client_id" (Client.id (Config.client config)) url in
    let url := URL.append "scope" scope url in
    let url := URL.append "redirect_uri"
                 (Client.redirectUrl (Config.client config)) url in
    mret (Some (URL.href url)).

(** [get action()] *)
Definition action : M KredsClientAction :=
  url ← redirectUrl;
  if negb (JS.truthy url) then throw no_configuration
  else
    url' ← redirectUrl;
    mret {| action_type := "redirect"; action_url := url' |}.

(** The initialiser of [new URLSearchParams({...})] in [token]: the
    properties in the order of the object literal. *)
Definition token_params (grantType : GrantType) (code : string) : URLSearchParams :=
  [ ("client_id", Client.id (Config.client config));
    ("client_secret", Client.secret (Config.client config));
    ("grant_type", GrantType_string grantType);
    (match grantType with
     | authorization_code => "code"
     | refresh_token => "refresh_token"
     end, code);
    ("redirect_uri", Client.redirectUrl (Config.client config));
    ("scope", scope) ].

Definition token_request (url : string) (grantType : GrantType) (code : string)
  : Request :=
  {| req_url := url;
     req_method := "POST";
     req_headers := [("Content-Type", "application/x-www-form-urlencoded")];
     req_body := Some (token_params grantType code) |}.

Definition token_failed : JS.Exception :=
  JS.Error "Token endpoint responded with a non-OK status code.".

(** [private async token(grantType, code)] *)
Definition token (grantType : GrantType) (code : string) : M Token.t :=
  c ← get_configuration;
  let url := OpenIDConfiguration.token_endpoint c in
  if negb (JS.truthy url) then throw no_configuration
  else
    try_catch
      (res ← do_fetch (token_request (default "" url) grantType code);
       lift (json_Token rt res))
      (fun err => emit (ConsoleTrace err);; throw token_failed).

Definition userinfo_request (url : string) (token : Token.t) : Request :=
  {| req_url := url;
     req_method := "GET";
     req_headers :=
       [("authorization",
         Token.token_type token ++ " " ++ Token.access_token token)];
     req_body := None |}.

Definition userinfo_failed : JS.Exception :=
  JS.Error "UserInfo endpoint responded with a non-OK status code.".

(** [private async userinfo(token)] *)
Definition userinfo (token : Token.t) : M OIDCUserInfo.t :=
  c ← get_configuration;
  let url := OpenIDConfiguration.userinfo_endpoint c in
  if negb (JS.truthy url) then throw no_configuration
  else
    try_catch
      (res ← do_fetch (userinfo_request (default "" url) token);
       lift (json_OIDCUserInfo rt res))
      (fun err => emit (ConsoleTrace err);; throw userinfo_failed).

(** [const expiresAt = new Date();
     expiresAt.setSeconds(expiresAt.getSeconds() + token.expires_in)] *)
Definition expiry (now : Z) (token : Token.t) : Date.t :=
  Date.setSeconds (LocalTZA rt) now
    (Date.getSeconds (LocalTZA rt) now + Token.expires_in token).

(** [await this.config.verify(context, data)] *)
Definition do_verify (context : KredsContext) (data : Data.t)
  : M (option (KredsAuthenticationOutcome V)) :=
  emit (Verify context data);;
  lift (Config.verify config context data).

(** [async authenticate(context)]; [None] is [undefined]. *)
Definition authenticate (context : KredsContext)
  : M (option (KredsAuthenticationOutcome V)) :=
  if negb (JS.ToBoolean (payload context)) then mret None
  else
    let payload := payload context in
    if negb (JS.ToBoolean payload) then
      a ← action;
      mret (Some (NotDone a))
    else
      has_code ← lift (JS.has_property "code" payload);
      unsupported ←
        (if negb has_code then
           has_refresh ← lift (JS.has_property "refresh_token" payload);
           mret (negb has_refresh)
         else mret false);
      if (unsupported : bool) then throw (JS.Error "Not supported yet.")
      else
        has_code ← lift (JS.has_property "code" payload);
        let grantType := if (has_code : bool) then authorization_code else refresh_token in
        has_code ← lift (JS.has_property "code" payload);
        let code :=
          if (has_code : bool) then JS.get_property "code" payload
          else JS.get_property "refresh_token" payload in
        token ← token grantType code;
        userInfo ← userinfo token;
        log ← get_log;
        let expiresAt := expiry (Date_now rt log) token in
        do_verify context
          {| Data.token := token; Data.userInfo := userInfo;
             Data.expiresAt := Some expiresAt |}.

End Instance.
End OIDCAuthenticationStrategy.

(** ** Notions the statements are made of *)

Section Notions.

Context {V : Type}.
Variable rt : Runtime.
Variable config : Config.t V.

(** What [authenticate] does once the payload is known to carry a code
    or a refresh token: lines 209 to 217 of the source. *)
Definition exchange_and_verify (context : KredsContext)
    (grantType : GrantType) (code : string)
  : M (option (KredsAuthenticationOutcome V)) :=
  tok ← OIDCAuthenticationStrategy.token rt config grantType code;
  userInfo ← OIDCAuthenticationStrategy.userinfo rt tok;
  log ← get_log;
  OIDCAuthenticationStrategy.do_verify config context
    {| Data.token := tok; Data.userInfo := userInfo;
       Data.expiresAt :=
         Some (OIDCAuthenticationStrategy.expiry rt (Date_now rt log) tok) |}.

End Notions.

(** The four parameters of lines 124 to 127, in the order of the calls. *)
Definition authorization_params (client : Client.t) : URLSearchParams :=
  [ ("response_type", "code");
    ("client_id", Client.id client);
    ("scope", String.concat " " (Client.scopes client));
    ("redirect_uri", Client.redirectUrl client) ].

(** The states an instance can be in: the one the constructor leaves,
    and those that reading [action] or calling [authenticate], the two
    public operations, lead to, whatever the runtime answers. *)
Inductive reachable {V : Type} (config : Config.t V) : State -> Prop :=
| reachable_constructed :
    reachable config OIDCAuthenticationStrategy.constructed
| reachable_action (rt : Runtime) (s : State) :
    reachable config s ->
    reachable config (snd (OIDCAuthenticationStrategy.action rt config s))
| reachable_authenticate (rt : Runtime) (context : KredsContext) (s : State) :
    reachable config s ->
    reachable config (snd (OIDCAuthenticationStrategy.authenticate rt config context s)).

(** How many times the verify function was called. *)
Fixpoint verify_calls (l : list Event) : nat :=
  match l with
  | [] => 0%nat
  | Verify _ _ :: l => S (verify_calls l)
  | _ :: l => verify_calls l
  end.

(** The requests sent over the network. *)
Fixpoint requests (l : list Event) : list Request :=
  match l with
  | [] => []
  | Fetch req :: l => req :: requests l
  | _ :: l => requests l
  end.

(** The payload selects a grant type and a value: lines 203 to 208. *)
Definition selects (props : gmap string string) (grantType : GrantType)
    (value : string) : Prop :=
  (props !! "code" = Some value /\ grantType = authorization_code)
  \/ (props !! "code" = None /\ props !! "refresh_token" = Some value
      /\ grantType = refresh_token).

(** Two runtimes that answer alike but for the status of the responses:
    the same URLs, clock and time zone, the same rejections, responses
    with the same bodies, and decoders that look at the body only. *)
Record alike_but_status (rt rt' : Runtime) : Prop := {
  alike_URL : forall url base, new_URL rt url base = new_URL rt' url base;
  alike_fetch : forall l req,
    match fetch rt l req, fetch rt' l req with
    | inl e, inl e' => e = e'
    | inr res, inr res' => res_body res = res_body res'
    | _, _ => False
    end;
  alike_configuration : forall res res',
    res_body res = res_body res' ->
    json_OpenIDConfiguration rt res = json_OpenIDConfiguration rt' res';
  alike_token : forall res res',
    res_body res = res_body res' -> json_Token rt res = json_Token rt' res';
  alike_userinfo : forall res res',
    res_body res = res_body res' ->
    json_OIDCUserInfo rt res = json_OIDCUserInfo rt' res';
  alike_now : forall l, Date_now rt l = Date_now rt' l;
  alike_zone : forall t isUTC, LocalTZA rt t isUTC = LocalTZA rt' t isUTC;
}.

(** The bytes that give a query its structure. *)
Definition structural (c : ascii) : Prop :=
  c = "&"%char \/ c = "="%char \/ c = "#"%char \/ c = " "%char \/ c = "?"%char.

(** The request [init] sends: [fetch(url)] with nothing else. *)
Definition discovery_request (url : URL.t) : Request :=
  {| req_url := URL.href url; req_method := "GET"; req_headers := [];
     req_body := None |}.

(** How often a byte occurs in a string. *)
Fixpoint count_char (c : ascii) (s : string) : nat :=
  match s with
  | EmptyString => 0%nat
  | String c' rest =>
      ((if Ascii.eqb c c' then 1 else 0) + count_char c rest)%nat
  end.

(** ** A runtime to run the strategy in

    An identity provider at [https://idp/] whose discovery document names
    three endpoints, whose token endpoint grants a bearer token for an
    hour and whose userinfo endpoint knows the subject [u1]; local time
    is the time of New York around the end of daylight saving time in
    2026 (2026-11-01T06:00:00Z). *)

Module Sample.

Definition plain_url (href : string) : URL.t :=
  {| URL.base := href; URL.query := None; URL.fragment := None;
     URL.searchParams := [] |}.

Definition parse (url : string) (base : option string) : JS.Exception + URL.t :=
  match base with
  | Some b =>
      if String.eqb b "https://idp/" then inr (plain_url (b ++ url))
      else inl (JS.TypeError "Invalid base URL")
  | None =>
      if String.prefix "https://" url then inr (plain_url url)
      else inl (JS.TypeError "Invalid URL")
  end.

Definition idp : OpenIDConfiguration.t :=
  {| OpenIDConfiguration.authorization_endpoint := Some "https://idp/auth";
     OpenIDConfiguration.token_endpoint := Some "https://idp/token";
     OpenIDConfiguration.userinfo_endpoint := Some "https://idp/userinfo" |}.

Definition AT1 : Token.t :=
  {| Token.access_token := "AT1"; Token.refresh_token := None;
     Token.token_type := "Bearer"; Token.expires_in := 3600;
     Token.scope := "openid" |}.

Definition u1 : OIDCUserInfo.t :=
  OIDCUserInfo.mk "u1" None None None None None None None None None
    (Some "a@b.com") None None None None None None None None None.

Definition network (_ : list Event) (req : Request) : JS.Exception + Response :=
  if String.eqb (req_url req) "https://idp/.well-known/openid-configuration"
  then inr {| res_status := 200; res_body := "configuration" |}
  else if String.eqb (req_url req) "https://idp/token"
  then inr {| res_status := 200; res_body := "token" |}
  else if String.eqb (req_url req) "https://idp/userinfo"
  then inr {| res_status := 200; res_body := "userinfo" |}
  else inl (JS.TypeError "fetch failed").

Definition json {A} (expected : string) (a : A) (res : Response) : JS.Exception + A :=
  if String.eqb (res_body res) expected then inr a
  else inl (JS.SyntaxError "Unexpected token").

(** 2026-11-01T06:00:00Z, when New York goes from UTC-4 to UTC-5. *)
Definition transition : Z := 1793512800000.

Definition zone (t : Z) (isUTC : bool) : Z :=
  if isUTC then
    if t <? transition then -4 * Date.msPerHour else -5 * Date.msPerHour
  else
    if t <? transition - 4 * Date.msPerHour then -4 * Date.msPerHour
    else -5 * Date.msPerHour.

(** The runtime, with the clock at [now]. *)
Definition runtime (now : Z) : Runtime :=
  {| new_URL := parse;
     fetch := network;
     json_OpenIDConfiguration := json "configuration" idp;
     json_Token := json "token" AT1;
     json_OIDCUserInfo := json "userinfo" u1;
     Date_now := fun _ => now;
     LocalTZA := zone |}.

Definition client : Client.t :=
  {| Client.id := "app"; Client.secret := "s3cret";
     Client.redirectUrl := "https://app/cb";
     Client.scopes := ["openid"; "profile"] |}.

(** A host whose verify function accepts everyone, returning the subject. *)
Definition config : Config.t string :=
  {| Config.client := client;
     Config.serverUrl := "https://idp/";
     Config.verify := fun _ data =>
       inr (Some (FromVerify (OIDCUserInfo.sub (Data.userInfo data)))) |}.

(** An instance whose [configuration] holds the discovery document. *)
Definition configured : State := {| configuration := idp; log := [] |}.

Definition with_code : KredsContext :=
  {| payload := JS.Object {[ "code" := "AUTHCODE" ]} |}.

(** A provider whose token endpoint cannot be reached. *)
Definition unreachable_provider : State :=
  {| configuration :=
       {| OpenIDConfiguration.authorization_endpoint := None;
          OpenIDConfiguration.token_endpoint := Some "https://down/token";
          OpenIDConfiguration.userinfo_endpoint := None |};
     log := [] |}.

(** A provider none of whose endpoints can be reached. *)
Definition down : State :=
  {| configuration :=
       {| OpenIDConfiguration.authorization_endpoint := Some "auth";
          OpenIDConfiguration.token_endpoint := Some "https://down/token";
          OpenIDConfiguration.userinfo_endpoint := Some "https://down/userinfo" |};
     log := [] |}.

(** A provider whose discovery document names no userinfo endpoint. *)
Definition without_userinfo : State :=
  {| configuration :=
       {| OpenIDConfiguration.authorization_endpoint := Some "https://idp/auth";
          OpenIDConfiguration.token_endpoint := Some "https://idp/token";
          OpenIDConfiguration.userinfo_endpoint := None |};
     log := [] |}.

(** A provider whose userinfo endpoint is down. *)
Definition userinfo_down : State :=
  {| configuration :=
       {| OpenIDConfiguration.authorization_endpoint := Some "https://idp/auth";
          OpenIDConfiguration.token_endpoint := Some "https://idp/token";
          OpenIDConfiguration.userinfo_endpoint := Some "https://down/userinfo" |};
     log := [] |}.

(** A document with the three endpoints given as empty strings. *)
Definition blank : State :=
  {| configuration :=
       {| OpenIDConfiguration.authorization_endpoint := Some "";
          OpenIDConfiguration.token_endpoint := Some "";
          OpenIDConfiguration.userinfo_endpoint := Some "" |};
     log := [] |}.

(** A host whose verify function returns nothing. *)
Definition silent : Config.t string :=
  {| Config.client := client;
     Config.serverUrl := "https://idp/";
     Config.verify := fun _ _ => inr None |}.

(** A host whose verify function throws. *)
Definition rejecting : Config.t string :=
  {| Config.client := client;
     Config.serverUrl := "https://idp/";
     Config.verify := fun _ _ => inl (JS.Error "unknown user") |}.

(** A host configured with a server the sample parser does not know. *)
Definition misconfigured : Config.t string :=
  {| Config.client := client;
     Config.serverUrl := "idp";
     Config.verify := fun _ data =>
       inr (Some (FromVerify (OIDCUserInfo.sub (Data.userInfo data)))) |}.

(** The same provider answering every request with status 500 and the
    body it would have sent with 200. *)
Definition network_500 (_ : list Event) (req : Request) : JS.Exception + Response :=
  if String.eqb (req_url req) "https://idp/.well-known/openid-configuration"
  then inr {| res_status := 500; res_body := "configuration" |}
  else if String.eqb (req_url req) "https://idp/token"
  then inr {| res_status := 500; res_body := "token" |}
  else if String.eqb (req_url req) "https://idp/userinfo"
  then inr {| res_status := 500; res_body := "userinfo" |}
  else inl (JS.TypeError "fetch failed").

Definition runtime_500 : Runtime :=
  {| new_URL := parse;
     fetch := network_500;
     json_OpenIDConfiguration := json "configuration" idp;
     json_Token := json "token" AT1;
     json_OIDCUserInfo := json "userinfo" u1;
     Date_now := fun _ => 0;
     LocalTZA := zone |}.

End Sample.

(** * Properties *)

(** ** Dates: adding seconds through the seconds field *)

(** * Properties *)

(** ** Dates: adding seconds through the seconds field *)

Module DateFacts.

(** The fields of a time value put together again give the time value. *)
Lemma fields_of_time (t : Z) :
  Date.MakeDate (Date.Day t)
    (Date.MakeTime (Date.HourFromTime t) (Date.MinFromTime t)
       (Date.SecFromTime t) (Date.msFromTime t)) = t.
Proof.
  unfold Date.MakeDate, Date.MakeTime, Date.Day, Date.HourFromTime,
    Date.MinFromTime, Date.SecFromTime, Date.msFromTime,
    Date.msPerDay, Date.msPerHour, Date.msPerMinute, Date.msPerSecond.
  pose proof (Z.div_mod t 1000 ltac:(discriminate)) as Hms.
  pose proof (Z.div_mod (t / 1000) 60 ltac:(discriminate)) as Hs.
  pose proof (Z.div_mod (t / 60000) 60 ltac:(discriminate)) as Hm.
  pose proof (Z.div_mod (t / 3600000) 24 ltac:(discriminate)) as Hh.
  rewrite Z.div_div in Hs, Hm, Hh by (discriminate || reflexivity).
  change (1000 * 60) with 60000 in Hs.
  change (60000 * 60) with 3600000 in Hm.
  change (3600000 * 24) with 86400000 in Hh.
  generalize dependent (t mod 1000).
  generalize dependent ((t / 1000) mod 60).
  generalize dependent ((t / 60000) mod 60).
  generalize dependent ((t / 3600000) mod 24).
  generalize dependent (t / 86400000).
  generalize dependent (t / 3600000).
  generalize dependent (t / 60000).
  generalize dependent (t / 1000).
  intros. lia.
Qed.

(** Seconds beyond 59 carry into the minutes, hours and days. *)
Lemma carry_seconds (t n : Z) :
  Date.MakeDate (Date.Day t)
    (Date.MakeTime (Date.HourFromTime t) (Date.MinFromTime t)
       (Date.SecFromTime t + n) (Date.msFromTime t))
  = t + n * 1000.
Proof.
  pose proof (fields_of_time t) as H. revert H.
  unfold Date.MakeDate, Date.MakeTime, Date.msPerSecond.
  generalize (Date.Day t * Date.msPerDay)
    (Date.HourFromTime t * Date.msPerHour)
    (Date.MinFromTime t * Date.msPerMinute)
    (Date.SecFromTime t) (Date.msFromTime t).
  intros. lia.
Qed.

(** Where local time keeps its offset from UTC, [setSeconds] of
    [getSeconds] plus [n] is [n] seconds later. *)
Lemma setSeconds_getSeconds (tza : Z -> bool -> Z) (t n : Z) :
  tza (t + tza t true + n * 1000) false = tza t true ->
  Z.abs (t + n * 1000) <= 8640000000000000 ->
  Date.setSeconds tza t (Date.getSeconds tza t + n) = Date.TimeValue (t + n * 1000).
Proof.
  intros Hzone Hrange.
  unfold Date.setSeconds, Date.getSeconds, Date.UTC, Date.LocalTime.
  rewrite carry_seconds, Hzone.
  unfold Date.TimeClip.
  replace (t + tza t true + n * 1000 - tza t true) with (t + n * 1000) by lia.
  destruct (Z.ltb_spec 8640000000000000 (Z.abs (t + n * 1000))); [lia | reflexivity].
Qed.



End DateFacts.

(** ** The strategy *)

Import OIDCAuthenticationStrategy.

(** Unfolds the operations of [M] down to functions on states. *)
Ltac run :=
  unfold do_verify in *;
  unfold mbind, M_bind, mret, M_ret, bind, ret, throw, try_catch, lift, emit,
    get_configuration, set_configuration, get_log, do_fetch, do_verify in *;
  simpl in *.

Lemma has_property_object (k : string) (props : gmap string string) :
  JS.has_property k (JS.Object props) = inr (bool_decide (is_Some (props !! k))).
Proof. reflexivity. Qed.

Lemma has_property_present (k v : string) (props : gmap string string) :
  props !! k = Some v -> JS.has_property k (JS.Object props) = inr true.
Proof.
  intros H. rewrite has_property_object, bool_decide_eq_true_2; eauto.
Qed.

Lemma has_property_missing (k : string) (props : gmap string string) :
  props !! k = None -> JS.has_property k (JS.Object props) = inr false.
Proof.
  intros H. rewrite has_property_object, bool_decide_eq_false_2; [reflexivity |].
  rewrite H. apply is_Some_None.
Qed.

Lemma truthy_Some (url : option string) :
  JS.truthy url = true -> exists u, url = Some u /\ u <> "".
Proof.
  destruct url as [u |]; simpl; [| discriminate].
  intros H. exists u. split; [reflexivity |].
  intros ->. discriminate.
Qed.

Lemma truthy_nonempty (u : string) : u <> "" -> JS.truthy (Some u) = true.
Proof.
  intros H. simpl. destruct (String.eqb_spec u ""); [contradiction | reflexivity].
Qed.

Section Facts.

Context {V : Type}.
Variable rt : Runtime.
Variable config : Config.t V.

Lemma token_unconfigured (grantType : GrantType) (code : string) (s : State) :
  JS.truthy (OpenIDConfiguration.token_endpoint (configuration s)) = false ->
  token rt config grantType code s = (inl no_configuration, s).
Proof. intros H. unfold token. run. rewrite H. reflexivity. Qed.

Lemma userinfo_unconfigured (tok : Token.t) (s : State) :
  JS.truthy (OpenIDConfiguration.userinfo_endpoint (configuration s)) = false ->
  userinfo rt tok s = (inl no_configuration, s).
Proof. intros H. unfold userinfo. run. rewrite H. reflexivity. Qed.

(** The getter [redirectUrl] changes nothing and records nothing. *)
Lemma redirectUrl_state (s : State) : snd (redirectUrl rt config s) = s.
Proof.
  unfold redirectUrl. run.
  destruct (JS.truthy _); simpl; [| reflexivity].
  destruct (new_URL rt _ None); reflexivity.
Qed.

Lemma action_state (s : State) : snd (action rt config s) = s.
Proof.
  unfold action. run.
  pose proof (redirectUrl_state s) as H.
  destruct (redirectUrl rt config s) as [[e | url] s']; simpl in *; subst s';
    [reflexivity |].
  destruct (JS.truthy url); simpl; [| reflexivity].
  pose proof (redirectUrl_state s) as H.
  destruct (redirectUrl rt config s) as [[e | url'] s']; simpl in *; subst s';
    reflexivity.
Qed.

(** The token exchange and the userinfo request never write
    [configuration]. *)
Lemma token_configuration (grantType : GrantType) (code : string) (s : State) :
  configuration (snd (token rt config grantType code s)) = configuration s.
Proof.
  unfold token. run.
  destruct (JS.truthy _); simpl; [| reflexivity].
  destruct (fetch rt _ _) as [e | res]; simpl; [reflexivity |].
  destruct (json_Token rt res); reflexivity.
Qed.

Lemma userinfo_configuration (tok : Token.t) (s : State) :
  configuration (snd (userinfo rt tok s)) = configuration s.
Proof.
  unfold userinfo. run.
  destruct (JS.truthy _); simpl; [| reflexivity].
  destruct (fetch rt _ _) as [e | res]; simpl; [reflexivity |].
  destruct (json_OIDCUserInfo rt res); reflexivity.
Qed.

Lemma authenticate_code (props : gmap string string) (code : string) (s : State) :
  props !! "code" = Some code ->
  authenticate rt config {| payload := JS.Object props |} s
  = exchange_and_verify rt config {| payload := JS.Object props |} authorization_code code s.
Proof.
  intros H. unfold authenticate, exchange_and_verify.
  cbn [payload JS.ToBoolean negb].
  rewrite (has_property_present _ _ _ H). run. rewrite H. reflexivity.
Qed.

Lemma authenticate_refresh_token (props : gmap string string) (code : string)
    (s : State) :
  props !! "code" = None ->
  props !! "refresh_token" = Some code ->
  authenticate rt config {| payload := JS.Object props |} s
  = exchange_and_verify rt config {| payload := JS.Object props |} refresh_token code s.
Proof.
  intros Hc H. unfold authenticate, exchange_and_verify.
  cbn [payload JS.ToBoolean negb].
  rewrite (has_property_missing _ _ Hc), (has_property_present _ _ _ H).
  run. rewrite H. reflexivity.
Qed.

Lemma exchange_and_verify_configuration (context : KredsContext)
    (grantType : GrantType) (code : string) (s : State) :
  configuration (snd (exchange_and_verify rt config context grantType code s))
  = configuration s.
Proof.
  unfold exchange_and_verify.
  unfold mbind at 1, M_bind at 1, bind at 1.
  pose proof (token_configuration grantType code s) as Ht.
  destruct (token rt config grantType code s) as [[e | tok] s1]; simpl in *;
    [assumption |].
  unfold mbind at 1, M_bind at 1, bind at 1.
  pose proof (userinfo_configuration tok s1) as Hu.
  destruct (userinfo rt tok s1) as [[e | ui] s2]; simpl in *;
    [congruence |].
  run. congruence.
Qed.

End Facts.

(** ** Payload classification *)

Section Classification.

Context {V : Type}.
Variable rt : Runtime.
Variable config : Config.t V.

(** A falsy payload: the first guard returns [undefined]. *)
Lemma authenticate_falsy (context : KredsContext) (s : State) :
  JS.ToBoolean (payload context) = false ->
  authenticate rt config context s = (inr None, s).
Proof.
  intros H. unfold authenticate. rewrite H. reflexivity.
Qed.

(** An object with neither property: line 200 throws. *)
Lemma authenticate_neither (props : gmap string string) (s : State) :
  props !! "code" = None ->
  props !! "refresh_token" = None ->
  authenticate rt config {| payload := JS.Object props |} s
  = (inl (JS.Error "Not supported yet."), s).
Proof.
  intros Hcode Hrefresh. unfold authenticate.
  cbn [payload JS.ToBoolean negb].
  rewrite (has_property_missing _ _ Hcode), (has_property_missing _ _ Hrefresh).
  reflexivity.
Qed.

(** A truthy payload that is not an object stops [authenticate] at the
    [in] operator. *)
Lemma authenticate_primitive_payload (context : KredsContext) (s : State) :
  JS.ToBoolean (payload context) = true ->
  (forall props, payload context <> JS.Object props) ->
  exists message, authenticate rt config context s = (inl (JS.TypeError message), s).
Proof.
  intros Htrue Hprim. unfold authenticate. rewrite Htrue.
  destruct (payload context); try discriminate; cbn; eauto.
  exfalso. eapply Hprim. reflexivity.
Qed.

(** [authenticate] never writes [configuration]. *)
Lemma authenticate_configuration (context : KredsContext) (s : State) :
  configuration (snd (authenticate rt config context s)) = configuration s.
Proof.
  destruct (JS.ToBoolean (payload context)) eqn:Htruthy.
  2: { rewrite authenticate_falsy by assumption. reflexivity. }
  destruct context as [p]. simpl in Htruthy.
  destruct p as [| | b | n | | str | props];
    try (destruct (authenticate_primitive_payload {| payload := _ |} s Htruthy)
           as [message ->]; [intros props; discriminate | reflexivity]).
  destruct (props !! "code") as [code |] eqn:Hcode.
  { rewrite (authenticate_code _ _ _ _ _ Hcode).
    apply exchange_and_verify_configuration. }
  destruct (props !! "refresh_token") as [code |] eqn:Hrefresh.
  { rewrite (authenticate_refresh_token _ _ _ _ _ Hcode Hrefresh).
    apply exchange_and_verify_configuration. }
  rewrite authenticate_neither by assumption. reflexivity.
Qed.

(** A [{done: false, action}] outcome of [authenticate] is one that the
    verify function returned. *)
Lemma authenticate_NotDone (context : KredsContext) (s s' : State)
    (a : KredsClientAction) :
  authenticate rt config context s = (inr (Some (NotDone a)), s') ->
  exists data, Config.verify config context data = inr (Some (NotDone a)).
Proof.
  destruct (JS.ToBoolean (payload context)) eqn:Htruthy.
  2: { rewrite authenticate_falsy by assumption. discriminate. }
  destruct context as [p]. simpl in Htruthy.
  destruct p as [| | b | n | | str | props];
    try (destruct (authenticate_primitive_payload {| payload := _ |} s Htruthy)
           as [message ->]; [intros props; discriminate | discriminate]).
  assert (forall g code,
    exchange_and_verify rt config {| payload := JS.Object props |} g code s
    = (inr (Some (NotDone a)), s') ->
    exists data,
      Config.verify config {| payload := JS.Object props |} data
      = inr (Some (NotDone a)))
    as Hexchange.
  { intros g code. unfold exchange_and_verify.
    unfold mbind at 1, M_bind at 1, bind at 1.
    destruct (token rt config g code s) as [[e | tok] s1]; [discriminate |].
    unfold mbind at 1, M_bind at 1, bind at 1.
    destruct (userinfo rt tok s1) as [[e | ui] s2]; [discriminate |].
    run. intros [= Hverify _]. eauto. }
  destruct (props !! "code") as [code |] eqn:Hcode.
  { rewrite (authenticate_code _ _ _ _ _ Hcode). apply Hexchange. }
  destruct (props !! "refresh_token") as [code |] eqn:Hrefresh.
  { rewrite (authenticate_refresh_token _ _ _ _ _ Hcode Hrefresh). apply Hexchange. }
  rewrite authenticate_neither by assumption. discriminate.
Qed.

End Classification.

(** ** The token exchange and the userinfo request, step by step *)

Section Exchange.

Context {V : Type}.
Variable rt : Runtime.
Variable config : Config.t V.

Lemma token_rejected (grantType : GrantType) (code url : string) (s : State)
    (e : JS.Exception) :
  OpenIDConfiguration.token_endpoint (configuration s) = Some url ->
  url <> "" ->
  fetch rt (log s) (token_request config url grantType code) = inl e ->
  token rt config grantType code s
  = (inl token_failed,
     {| configuration := configuration s;
        log := (log s ++ [Fetch (token_request config url grantType code);
                          ConsoleTrace e])%list |}).
Proof.
  intros Hurl Hne Hfetch. unfold token. run.
  rewrite Hurl, (truthy_nonempty _ Hne). simpl. rewrite Hfetch.
  simpl. rewrite <- app_assoc. reflexivity.
Qed.

Lemma token_undecodable (grantType : GrantType) (code url : string) (s : State)
    (res : Response) (e : JS.Exception) :
  OpenIDConfiguration.token_endpoint (configuration s) = Some url ->
  url <> "" ->
  fetch rt (log s) (token_request config url grantType code) = inr res ->
  json_Token rt res = inl e ->
  token rt config grantType code s
  = (inl token_failed,
     {| configuration := configuration s;
        log := (log s ++ [Fetch (token_request config url grantType code);
                          ConsoleTrace e])%list |}).
Proof.
  intros Hurl Hne Hfetch Hjson. unfold token. run.
  rewrite Hurl, (truthy_nonempty _ Hne). simpl. rewrite Hfetch. simpl. rewrite Hjson.
  simpl. rewrite <- app_assoc. reflexivity.
Qed.

Lemma token_granted (grantType : GrantType) (code url : string) (s : State)
    (res : Response) (tok : Token.t) :
  OpenIDConfiguration.token_endpoint (configuration s) = Some url ->
  url <> "" ->
  fetch rt (log s) (token_request config url grantType code) = inr res ->
  json_Token rt res = inr tok ->
  token rt config grantType code s
  = (inr tok,
     {| configuration := configuration s;
        log := (log s ++ [Fetch (token_request config url grantType code)])%list |}).
Proof.
  intros Hurl Hne Hfetch Hjson. unfold token. run.
  rewrite Hurl, (truthy_nonempty _ Hne). simpl. rewrite Hfetch. simpl. rewrite Hjson.
  reflexivity.
Qed.

Lemma userinfo_answered (tok : Token.t) (url : string) (s : State)
    (res : Response) (ui : OIDCUserInfo.t) :
  OpenIDConfiguration.userinfo_endpoint (configuration s) = Some url ->
  url <> "" ->
  fetch rt (log s) (userinfo_request url tok) = inr res ->
  json_OIDCUserInfo rt res = inr ui ->
  userinfo rt tok s
  = (inr ui,
     {| configuration := configuration s;
        log := (log s ++ [Fetch (userinfo_request url tok)])%list |}).
Proof.
  intros Hurl Hne Hfetch Hjson. unfold userinfo. run.
  rewrite Hurl, (truthy_nonempty _ Hne). simpl. rewrite Hfetch. simpl. rewrite Hjson.
  reflexivity.
Qed.

(** With a token endpoint, the first thing [token] does is the POST. *)
Lemma token_log (grantType : GrantType) (code url : string) (s : State) :
  OpenIDConfiguration.token_endpoint (configuration s) = Some url ->
  url <> "" ->
  exists rest,
    log (snd (token rt config grantType code s))
    = (log s ++ Fetch (token_request config url grantType code) :: rest)%list.
Proof.
  intros Hurl Hne.
  destruct (fetch rt (log s) (token_request config url grantType code))
    as [e | res] eqn:Hfetch.
  { rewrite (token_rejected _ _ _ _ _ Hurl Hne Hfetch). simpl. eauto. }
  destruct (json_Token rt res) as [e | tok] eqn:Hjson.
  { rewrite (token_undecodable _ _ _ _ _ _ Hurl Hne Hfetch Hjson). simpl. eauto. }
  rewrite (token_granted _ _ _ _ _ _ Hurl Hne Hfetch Hjson). simpl. eauto.
Qed.

(** The log only grows. *)
Lemma userinfo_log (tok : Token.t) (s : State) :
  exists more, log (snd (userinfo rt tok s)) = (log s ++ more)%list.
Proof.
  unfold userinfo. run.
  destruct (JS.truthy _); simpl; [| exists []; symmetry; apply app_nil_r].
  destruct (fetch rt _ _) as [e | res]; simpl.
  { rewrite <- app_assoc. eauto. }
  destruct (json_OIDCUserInfo rt res); simpl; [rewrite <- app_assoc |]; eauto.
Qed.

Lemma exchange_and_verify_log (context : KredsContext) (grantType : GrantType)
    (code url : string) (s : State) :
  OpenIDConfiguration.token_endpoint (configuration s) = Some url ->
  url <> "" ->
  exists rest,
    log (snd (exchange_and_verify rt config context grantType code s))
    = (log s ++ Fetch (token_request config url grantType code) :: rest)%list.
Proof.
  intros Hurl Hne. unfold exchange_and_verify.
  unfold mbind at 1, M_bind at 1, bind at 1.
  destruct (token_log grantType code url s Hurl Hne) as [rest Htoken].
  destruct (token rt config grantType code s) as [[e | tok] s1]; simpl in *;
    [eauto |].
  unfold mbind at 1, M_bind at 1, bind at 1.
  destruct (userinfo_log tok s1) as [more Huserinfo].
  destruct (userinfo rt tok s1) as [[e | ui] s2]; simpl in *.
  { rewrite Huserinfo, Htoken, <- app_assoc. simpl. eauto. }
  run. rewrite Huserinfo, Htoken, <- !app_assoc. simpl. eauto.
Qed.

End Exchange.

(** ** The authorization URL *)

Lemma append_nonempty (a b : string) : b <> "" -> (a ++ b)%string <> "".
Proof. destruct a; simpl; [auto | discriminate]. Qed.

(** A list of parameters that ends in a pair never serialises to the
    empty string. *)
Lemma serialize_nonempty (l : URLSearchParams) (name value : string) :
  FormUrlEncoded.serialize (l ++ [(name, value)]) <> "".
Proof.
  unfold FormUrlEncoded.serialize. rewrite map_app. simpl.
  induction l as [| kv l IH]; simpl.
  - apply append_nonempty. discriminate.
  - destruct (map _ l ++ _)%list eqn:Hl.
    + destruct (map (fun kv => (FormUrlEncoded.encode (fst kv) ++ "="
                                 ++ FormUrlEncoded.encode (snd kv))%string) l);
        discriminate.
    + apply append_nonempty. discriminate.
Qed.

Section Redirect.

Context {V : Type}.
Variable rt : Runtime.
Variable config : Config.t V.

Lemma redirectUrl_absent (s : State) :
  JS.truthy (OpenIDConfiguration.authorization_endpoint (configuration s)) = false ->
  redirectUrl rt config s = (inr None, s).
Proof. intros H. unfold redirectUrl. run. rewrite H. reflexivity. Qed.

Lemma redirectUrl_present (s : State) (endpoint : string) (url : URL.t) :
  OpenIDConfiguration.authorization_endpoint (configuration s) = Some endpoint ->
  endpoint <> "" ->
  new_URL rt endpoint None = inr url ->
  redirectUrl rt config s
  = (inr (Some (URL.base url ++ "?"
                ++ FormUrlEncoded.serialize
                     (URL.searchParams url
                      ++ authorization_params (Config.client config))
                ++ match URL.fragment url with
                   | Some f => "#" ++ f
                   | None => ""
                   end)%string), s).
Proof.
  intros Hendpoint Hne Hparse. unfold redirectUrl. run.
  rewrite Hendpoint, (truthy_nonempty _ Hne). simpl. rewrite Hparse.
  unfold URL.href, URL.append. simpl.
  rewrite <- !app_assoc. simpl.
  change ([("response_type", "code"); ("client_id", Client.id (Config.client config));
           ("scope", scope config);
           ("redirect_uri", Client.redirectUrl (Config.client config))])
    with ([("response_type", "code"); ("client_id", Client.id (Config.client config));
           ("scope", scope config)]
          ++ [("redirect_uri", Client.redirectUrl (Config.client config))])%list.
  rewrite app_assoc.
  destruct (String.eqb_spec
    (FormUrlEncoded.serialize
       ((URL.searchParams url
         ++ [("response_type", "code"); ("client_id", Client.id (Config.client config));
             ("scope", scope config)])
        ++ [("redirect_uri", Client.redirectUrl (Config.client config))])) "")
    as [Hempty | _].
  { exfalso. exact (serialize_nonempty _ _ _ Hempty). }
  unfold authorization_params, scope, JS.join. rewrite <- app_assoc. reflexivity.
Qed.

Lemma action_unconfigured (s : State) :
  JS.truthy (OpenIDConfiguration.authorization_endpoint (configuration s)) = false ->
  action rt config s = (inl no_configuration, s).
Proof.
  intros H. unfold action. run. rewrite (redirectUrl_absent s H). reflexivity.
Qed.

End Redirect.

(** ** An instance that was never configured *)

Section Unconfigured.

Context {V : Type}.
Variable rt : Runtime.
Variable config : Config.t V.

Lemma exchange_and_verify_unconfigured (context : KredsContext)
    (grantType : GrantType) (code : string) (s : State) :
  JS.truthy (OpenIDConfiguration.token_endpoint (configuration s)) = false ->
  exchange_and_verify rt config context grantType code s
  = (inl no_configuration, s).
Proof.
  intros H. unfold exchange_and_verify.
  unfold mbind at 1, M_bind at 1, bind at 1.
  rewrite (token_unconfigured rt config grantType code s H). reflexivity.
Qed.

(** Without a token endpoint [authenticate] leaves no trace at all. *)
Lemma authenticate_unconfigured_state (context : KredsContext) (s : State) :
  JS.truthy (OpenIDConfiguration.token_endpoint (configuration s)) = false ->
  snd (authenticate rt config context s) = s.
Proof.
  intros H.
  destruct (JS.ToBoolean (payload context)) eqn:Htruthy.
  2: { rewrite authenticate_falsy by assumption. reflexivity. }
  destruct context as [p]. simpl in Htruthy.
  destruct p as [| | b | n | | str | props];
    try (destruct (authenticate_primitive_payload rt config {| payload := _ |} s Htruthy)
           as [message ->]; [intros props; discriminate | reflexivity]).
  destruct (props !! "code") as [code |] eqn:Hcode.
  { rewrite (authenticate_code _ _ _ _ _ Hcode),
      exchange_and_verify_unconfigured by assumption. reflexivity. }
  destruct (props !! "refresh_token") as [code |] eqn:Hrefresh.
  { rewrite (authenticate_refresh_token _ _ _ _ _ Hcode Hrefresh),
      exchange_and_verify_unconfigured by assumption. reflexivity. }
  rewrite authenticate_neither by assumption. reflexivity.
Qed.

End Unconfigured.

(** Every reachable state is the constructed one. *)
Lemma reachable_constructed_only {V : Type} (config : Config.t V) (s : State) :
  reachable config s -> s = constructed.
Proof.
  induction 1 as [| rt s _ IH | rt context s _ IH]; [reflexivity | |]; subst s.
  - apply action_state.
  - apply authenticate_unconfigured_state. reflexivity.
Qed.

(** ** The successful exchange *)

Section Verified.

Context {V : Type}.
Variable rt : Runtime.
Variable config : Config.t V.

(** When both endpoints answer and the verify function returns,
    [authenticate] returns what verify returned, after one POST, one GET
    and one call of verify, in this order. *)
Lemma exchange_and_verify_verified (context : KredsContext)
    (grantType : GrantType) (code : string) (s : State)
    (token_url userinfo_url : string) (res1 res2 : Response)
    (tok : Token.t) (ui : OIDCUserInfo.t)
    (v : option (KredsAuthenticationOutcome V)) :
  let request1 := token_request config token_url grantType code in
  let request2 := userinfo_request userinfo_url tok in
  let now := Date_now rt (log s ++ [Fetch request1; Fetch request2]) in
  let data := {| Data.token := tok; Data.userInfo := ui;
                 Data.expiresAt := Some (expiry rt now tok) |} in
  OpenIDConfiguration.token_endpoint (configuration s) = Some token_url ->
  token_url <> "" ->
  OpenIDConfiguration.userinfo_endpoint (configuration s) = Some userinfo_url ->
  userinfo_url <> "" ->
  fetch rt (log s) request1 = inr res1 ->
  json_Token rt res1 = inr tok ->
  fetch rt (log s ++ [Fetch request1]) request2 = inr res2 ->
  json_OIDCUserInfo rt res2 = inr ui ->
  Config.verify config context data = inr v ->
  exchange_and_verify rt config context grantType code s
  = (inr v,
     {| configuration := configuration s;
        log := (log s ++ [Fetch request1; Fetch request2; Verify context data])%list |}).
Proof.
  intros request1 request2 now data Ht Htne Hu Hune Hf1 Hj1 Hf2 Hj2 Hv.
  subst request1 request2 now data.
  unfold exchange_and_verify.
  unfold mbind at 1, M_bind at 1, bind at 1.
  rewrite (token_granted rt config _ _ _ _ _ _ Ht Htne Hf1 Hj1).
  cbv beta iota. unfold mbind at 1, M_bind at 1, bind at 1.
  rewrite (userinfo_answered rt tok userinfo_url
             {| configuration := configuration s;
                log := (log s ++ [Fetch (token_request config token_url grantType code)])%list |}
             res2 ui Hu Hune Hf2 Hj2).
  run. rewrite <- !app_assoc. simpl. rewrite Hv. reflexivity.
Qed.

End Verified.

(** * The statements of the specification, C1 to C10 *)

(** C1. What the code does where the claim expects discovery first: on a
    newly constructed instance, a payload with a code makes
    [authenticate] throw the missing-configuration error with nothing
    fetched and [configuration] still empty, in every runtime; [init],
    had it been called, would have fetched the discovery document and
    stored it. *)
Theorem authenticate_skips_discovery :
  (forall (V : Type) (rt : Runtime) (config : Config.t V),
     authenticate rt config Sample.with_code constructed
     = (inl (JS.Error "No OpenID configuration for strategy -oidc."), constructed))
  /\ (forall now : Z,
        init (Sample.runtime now) Sample.config constructed
        = (inr tt,
           {| configuration := Sample.idp;
              log := [Fetch {| req_url := "https://idp/.well-known/openid-configuration";
                               req_method := "GET"; req_headers := [];
                               req_body := None |}] |})).
Proof.
  split.
  - intros V rt config. unfold Sample.with_code.
    rewrite (authenticate_code rt config _ "AUTHCODE" constructed) by reflexivity.
    apply exchange_and_verify_unconfigured. reflexivity.
  - intros now. reflexivity.
Qed.




(** C3. When [context.payload] is absent (falsy), [authenticate] returns
    [undefined] and leaves the instance and the log as they were: nothing
    is fetched, no token is exchanged, no userinfo is asked for and the
    verify function is not called. *)
Theorem authenticate_absent_payload {V : Type} (rt : Runtime)
    (config : Config.t V) (context : KredsContext) (s : State) :
  JS.ToBoolean (payload context) = false ->
  authenticate rt config context s = (inr None, s)
  /\ requests (log (snd (authenticate rt config context s))) = requests (log s)
  /\ verify_calls (log (snd (authenticate rt config context s)))
     = verify_calls (log s).
Proof.
  intros H. rewrite (authenticate_falsy rt config context s H).
  repeat split.
Qed.

Lemma authenticate_absent_payload_witness :
  authenticate (Sample.runtime 0) Sample.config {| payload := JS.Undefined |}
    Sample.configured
  = (inr None, Sample.configured).
Proof.
  apply (authenticate_absent_payload (Sample.runtime 0) Sample.config
           {| payload := JS.Undefined |} Sample.configured).
  reflexivity.
Defined.

(** C4. A payload object that carries neither a [code] nor a
    [refresh_token] makes [authenticate] throw the error
    "Not supported yet."; the state is untouched, so no request was
    sent. *)
Theorem authenticate_unsupported_payload {V : Type} (rt : Runtime)
    (config : Config.t V) (props : gmap string string) (s : State) :
  props !! "code" = None ->
  props !! "refresh_token" = None ->
  authenticate rt config {| payload := JS.Object props |} s
  = (inl (JS.Error "Not supported yet."), s)
  /\ requests (log (snd (authenticate rt config {| payload := JS.Object props |} s)))
     = requests (log s).
Proof.
  intros Hcode Hrefresh.
  rewrite (authenticate_neither rt config props s Hcode Hrefresh).
  split; reflexivity.
Qed.

Lemma authenticate_unsupported_payload_witness :
  authenticate (Sample.runtime 0) Sample.config
    {| payload := JS.Object {[ "access_token" := "t" ]} |} Sample.configured
  = (inl (JS.Error "Not supported yet."), Sample.configured).
Proof.
  apply (authenticate_unsupported_payload (Sample.runtime 0) Sample.config
           {[ "access_token" := "t" ]} Sample.configured);
    vm_compute; reflexivity.
Defined.

(** C5. A payload with a [code] is exchanged under the grant type
    [authorization_code] with that code; a payload with a
    [refresh_token] and no [code], under [refresh_token] with that
    refresh token.  In both cases [authenticate] is the exchange followed
    by userinfo and verify, and where the token endpoint is known the
    first thing it does is a POST to it, form-encoded, whose body has
    exactly the six fields [client_id], [client_secret], [grant_type]
    (the string [authorization_code] or [refresh_token]), [code] or
    [refresh_token] as the grant type says, [redirect_uri] and [scope],
    in this order. *)
Theorem grant_type_selection {V : Type} (rt : Runtime) (config : Config.t V)
    (props : gmap string string) (value : string) :
  let context := {| payload := JS.Object props |} in
  let client := Config.client config in
  (props !! "code" = Some value ->
   (forall s : State,
      authenticate rt config context s
      = exchange_and_verify rt config context authorization_code value s)
   /\ forall (s : State) (url : string),
        OpenIDConfiguration.token_endpoint (configuration s) = Some url ->
        url <> "" ->
        exists rest,
          log (snd (authenticate rt config context s))
          = (log s
             ++ Fetch {| req_url := url;
                         req_method := "POST";
                         req_headers :=
                           [("Content-Type", "application/x-www-form-urlencoded")];
                         req_body :=
                           Some [ ("client_id", Client.id client);
                                  ("client_secret", Client.secret client);
                                  ("grant_type", "authorization_code");
                                  ("code", value);
                                  ("redirect_uri", Client.redirectUrl client);
                                  ("scope",
                                   String.concat " " (Client.scopes client)) ] |}
             :: rest)%list)
  /\ (props !! "code" = None ->
      props !! "refresh_token" = Some value ->
      (forall s : State,
         authenticate rt config context s
         = exchange_and_verify rt config context refresh_token value s)
      /\ forall (s : State) (url : string),
           OpenIDConfiguration.token_endpoint (configuration s) = Some url ->
           url <> "" ->
           exists rest,
             log (snd (authenticate rt config context s))
             = (log s
                ++ Fetch {| req_url := url;
                            req_method := "POST";
                            req_headers :=
                              [("Content-Type", "application/x-www-form-urlencoded")];
                            req_body :=
                              Some [ ("client_id", Client.id client);
                                     ("client_secret", Client.secret client);
                                     ("grant_type", "refresh_token");
                                     ("refresh_token", value);
                                     ("redirect_uri", Client.redirectUrl client);
                                     ("scope",
                                      String.concat " " (Client.scopes client)) ] |}
                :: rest)%list).
Proof.
  intros context client. split.
  - intros Hcode.
    assert (forall s, authenticate rt config context s
                      = exchange_and_verify rt config context
                          authorization_code value s) as Hsame
      by (intros s; apply authenticate_code; assumption).
    split; [exact Hsame |].
    intros s url Hurl Hne. rewrite Hsame.
    exact (exchange_and_verify_log rt config context authorization_code value
             url s Hurl Hne).
  - intros Hcode Hrefresh.
    assert (forall s, authenticate rt config context s
                      = exchange_and_verify rt config context
                          refresh_token value s) as Hsame
      by (intros s; apply authenticate_refresh_token; assumption).
    split; [exact Hsame |].
    intros s url Hurl Hne. rewrite Hsame.
    exact (exchange_and_verify_log rt config context refresh_token value
             url s Hurl Hne).
Qed.

Lemma grant_type_selection_witness :
  requests (log (snd (authenticate (Sample.runtime 0) Sample.config
                        {| payload := JS.Object {[ "code" := "abc" ]} |}
                        Sample.configured))) !! 0%nat
  = Some {| req_url := "https://idp/token";
            req_method := "POST";
            req_headers := [("Content-Type", "application/x-www-form-urlencoded")];
            req_body := Some [ ("client_id", "app"); ("client_secret", "s3cret");
                               ("grant_type", "authorization_code");
                               ("code", "abc");
                               ("redirect_uri", "https://app/cb");
                               ("scope", "openid profile") ] |}
  /\ requests (log (snd (authenticate (Sample.runtime 0) Sample.config
                           {| payload := JS.Object {[ "refresh_token" := "xyz" ]} |}
                           Sample.configured))) !! 0%nat
     = Some {| req_url := "https://idp/token";
               req_method := "POST";
               req_headers := [("Content-Type", "application/x-www-form-urlencoded")];
               req_body := Some [ ("client_id", "app"); ("client_secret", "s3cret");
                                  ("grant_type", "refresh_token");
                                  ("refresh_token", "xyz");
                                  ("redirect_uri", "https://app/cb");
                                  ("scope", "openid profile") ] |}.
Proof.
  split.
  - destruct (grant_type_selection (Sample.runtime 0) Sample.config
                {[ "code" := "abc" ]} "abc") as [Hcode _].
    destruct Hcode as [_ Hlog]; [vm_compute; reflexivity |].
    destruct (Hlog Sample.configured "https://idp/token" eq_refl ltac:(discriminate))
      as [rest ->].
    reflexivity.
  - destruct (grant_type_selection (Sample.runtime 0) Sample.config
                {[ "refresh_token" := "xyz" ]} "xyz") as [_ Hrefresh].
    destruct Hrefresh as [_ Hlog]; [vm_compute; reflexivity .. |].
    destruct (Hlog Sample.configured "https://idp/token" eq_refl ltac:(discriminate))
      as [rest ->].
    reflexivity.
Defined.

(** C6. Without a token endpoint [token] throws the
    missing-configuration error and sends nothing.  With one, a rejected
    [fetch] and a body that does not decode both end in the same error,
    "Token endpoint responded with a non-OK status code.", whatever the
    cause was; the cause goes to [console.trace] only.  The two errors
    differ. *)
Theorem token_errors {V : Type} (rt : Runtime) (config : Config.t V)
    (grantType : GrantType) (code : string) (s : State) :
  (JS.truthy (OpenIDConfiguration.token_endpoint (configuration s)) = false ->
   token rt config grantType code s
   = (inl (JS.Error "No OpenID configuration for strategy -oidc."), s))
  /\ (forall (url : string) (cause : JS.Exception),
        OpenIDConfiguration.token_endpoint (configuration s) = Some url ->
        url <> "" ->
        let request := token_request config url grantType code in
        fetch rt (log s) request = inl cause
        \/ (exists res, fetch rt (log s) request = inr res
                        /\ json_Token rt res = inl cause) ->
        token rt config grantType code s
        = (inl (JS.Error "Token endpoint responded with a non-OK status code."),
           {| configuration := configuration s;
              log := (log s ++ [Fetch request; ConsoleTrace cause])%list |}))
  /\ JS.Error "No OpenID configuration for strategy -oidc."
     <> JS.Error "Token endpoint responded with a non-OK status code.".
Proof.
  split; [| split].
  - apply token_unconfigured.
  - intros url cause Hurl Hne request [Hfetch | (res & Hfetch & Hjson)].
    + exact (token_rejected rt config grantType code url s cause Hurl Hne Hfetch).
    + exact (token_undecodable rt config grantType code url s res cause
               Hurl Hne Hfetch Hjson).
  - discriminate.
Qed.

Lemma token_errors_witness :
  token (Sample.runtime 0) Sample.config authorization_code "abc" constructed
  = (inl (JS.Error "No OpenID configuration for strategy -oidc."), constructed)
  /\ fst (token (Sample.runtime 0) Sample.config authorization_code "abc"
            Sample.unreachable_provider)
     = inl (JS.Error "Token endpoint responded with a non-OK status code.")
  /\ log (snd (token (Sample.runtime 0) Sample.config authorization_code "abc"
                 Sample.unreachable_provider)) !! 1%nat
     = Some (ConsoleTrace (JS.TypeError "fetch failed")).
Proof.
  split.
  - apply (token_errors (Sample.runtime 0) Sample.config authorization_code "abc"
             constructed).
    reflexivity.
  - destruct (token_errors (Sample.runtime 0) Sample.config authorization_code
                "abc" Sample.unreachable_provider) as (_ & Hfailed & _).
    rewrite (Hfailed "https://down/token" (JS.TypeError "fetch failed") eq_refl
               ltac:(discriminate) (or_introl eq_refl)).
    split; reflexivity.
Defined.

(** Where local time keeps its offset from UTC between now and the
    expiry, the expiry is [expires_in] seconds from now. *)
Lemma expiry_steady_offset (rt : Runtime) (now : Z) (tok : Token.t) :
  LocalTZA rt (now + LocalTZA rt now true + Token.expires_in tok * 1000) false
  = LocalTZA rt now true ->
  Z.abs (now + Token.expires_in tok * 1000) <= 8640000000000000 ->
  expiry rt now tok = Date.TimeValue (now + Token.expires_in tok * 1000).
Proof. apply DateFacts.setSeconds_getSeconds. Qed.

(** The successful code exchange: one POST, one GET, one call of verify
    with the token, the user's claims and the expiry, and the outcome of
    verify as the result. *)
Lemma authenticate_code_verified {V : Type} (rt : Runtime) (config : Config.t V)
    (props : gmap string string) (code : string) (s : State)
    (token_url userinfo_url : string) (res1 res2 : Response)
    (tok : Token.t) (ui : OIDCUserInfo.t)
    (v : option (KredsAuthenticationOutcome V)) :
  let context := {| payload := JS.Object props |} in
  let request1 := token_request config token_url authorization_code code in
  let request2 := userinfo_request userinfo_url tok in
  let now := Date_now rt (log s ++ [Fetch request1; Fetch request2]) in
  let data := {| Data.token := tok; Data.userInfo := ui;
                 Data.expiresAt := Some (expiry rt now tok) |} in
  props !! "code" = Some code ->
  OpenIDConfiguration.token_endpoint (configuration s) = Some token_url ->
  token_url <> "" ->
  OpenIDConfiguration.userinfo_endpoint (configuration s) = Some userinfo_url ->
  userinfo_url <> "" ->
  fetch rt (log s) request1 = inr res1 ->
  json_Token rt res1 = inr tok ->
  fetch rt (log s ++ [Fetch request1]) request2 = inr res2 ->
  json_OIDCUserInfo rt res2 = inr ui ->
  Config.verify config context data = inr v ->
  authenticate rt config context s
  = (inr v,
     {| configuration := configuration s;
        log := (log s ++ [Fetch request1; Fetch request2; Verify context data])%list |}).
Proof.
  intros context request1 request2 now data Hcode.
  unfold context. rewrite (authenticate_code rt config props code s Hcode).
  apply exchange_and_verify_verified.
Qed.

(** On an ordinary day the expiry is an hour from now: the sample
    provider at 1970-01-01T00:00:00Z. *)
Example authenticate_code_verified_sample :
  authenticate (Sample.runtime 0) Sample.config Sample.with_code Sample.configured
  = (inr (Some (FromVerify "u1")),
     {| configuration := Sample.idp;
        log :=
          [ Fetch (token_request Sample.config "https://idp/token"
                     authorization_code "AUTHCODE");
            Fetch (userinfo_request "https://idp/userinfo" Sample.AT1);
            Verify Sample.with_code
              {| Data.token := Sample.AT1;
                 Data.userInfo := Sample.u1;
                 Data.expiresAt := Some (Date.TimeValue 3600000) |} ] |}).
Proof.
  assert (expiry (Sample.runtime 0) 0 Sample.AT1 = Date.TimeValue 3600000)
    as Hexpiry.
  { rewrite expiry_steady_offset; [reflexivity | reflexivity |].
    vm_compute. discriminate. }
  rewrite <- Hexpiry.
  apply (authenticate_code_verified (Sample.runtime 0) Sample.config
           {[ "code" := "AUTHCODE" ]} "AUTHCODE" Sample.configured
           "https://idp/token" "https://idp/userinfo"
           {| res_status := 200; res_body := "token" |}
           {| res_status := 200; res_body := "userinfo" |}
           Sample.AT1 Sample.u1 (Some (FromVerify "u1")));
    solve [reflexivity | discriminate].
Qed.

(** C7. What the code does where the claim expects an expiry of now plus
    [expires_in] seconds: in New York at 2026-11-01T05:30:00Z, half an
    hour before the clocks go back, with a token that expires in 3600
    seconds, verify is called once, with the token and the claims, and
    its outcome is returned, but the expiry it is given is 7200 seconds
    from now. *)
Theorem expiry_across_clock_change :
  let now := 1793511000000 in
  Token.expires_in Sample.AT1 = 3600
  /\ authenticate (Sample.runtime now) Sample.config Sample.with_code
       Sample.configured
     = (inr (Some (FromVerify "u1")),
        {| configuration := Sample.idp;
           log :=
             [ Fetch (token_request Sample.config "https://idp/token"
                        authorization_code "AUTHCODE");
               Fetch (userinfo_request "https://idp/userinfo" Sample.AT1);
               Verify Sample.with_code
                 {| Data.token := Sample.AT1;
                    Data.userInfo := Sample.u1;
                    Data.expiresAt := Some (Date.TimeValue (now + 7200 * 1000)) |} ] |})
  /\ Date.TimeValue (now + 7200 * 1000) <> Date.TimeValue (now + 3600 * 1000).
Proof.
  split; [reflexivity |]. split; [vm_compute; reflexivity | discriminate].
Qed.

(** C8. The getter [redirectUrl] changes nothing, and its value depends
    on [configuration] and the client configuration only, so two reads
    give the same string.  Without an authorization endpoint the value is
    [undefined]; with one, it is the endpoint followed by the query made
    of [response_type=code], [client_id], [scope] (the scopes joined by
    spaces) and [redirect_uri], in this order, after whatever parameters
    the endpoint had. *)
Theorem redirectUrl_deterministic {V : Type} (rt : Runtime) (config : Config.t V)
    (s : State) :
  snd (redirectUrl rt config s) = s
  /\ (forall s' : State,
        configuration s' = configuration s ->
        fst (redirectUrl rt config s') = fst (redirectUrl rt config s))
  /\ (OpenIDConfiguration.authorization_endpoint (configuration s) = None ->
      fst (redirectUrl rt config s) = inr None)
  /\ (forall (endpoint : string) (url : URL.t),
        OpenIDConfiguration.authorization_endpoint (configuration s) = Some endpoint ->
        endpoint <> "" ->
        new_URL rt endpoint None = inr url ->
        fst (redirectUrl rt config s)
        = inr (Some (URL.base url ++ "?"
                     ++ FormUrlEncoded.serialize
                          (URL.searchParams url
                           ++ [ ("response_type", "code");
                                ("client_id", Client.id (Config.client config));
                                ("scope",
                                 String.concat " " (Client.scopes (Config.client config)));
                                ("redirect_uri",
                                 Client.redirectUrl (Config.client config)) ])
                     ++ match URL.fragment url with
                        | Some f => "#" ++ f
                        | None => ""
                        end)%string)).
Proof.
  split; [apply redirectUrl_state |]. split; [| split].
  - intros s' Hsame. unfold redirectUrl. run. rewrite Hsame.
    destruct (JS.truthy _); simpl; [| reflexivity].
    destruct (new_URL rt _ None); reflexivity.
  - intros Habsent. rewrite redirectUrl_absent; [reflexivity |].
    rewrite Habsent. reflexivity.
  - intros endpoint url Hendpoint Hne Hparse.
    rewrite (redirectUrl_present rt config s endpoint url Hendpoint Hne Hparse).
    reflexivity.
Qed.

Lemma redirectUrl_deterministic_witness :
  fst (redirectUrl (Sample.runtime 0) Sample.config Sample.configured)
  = inr (Some "https://idp/auth?response_type=code&client_id=app&scope=openid+profile&redirect_uri=https%3A%2F%2Fapp%2Fcb").
Proof.
  destruct (redirectUrl_deterministic (Sample.runtime 0) Sample.config
              Sample.configured) as (_ & _ & _ & Hpresent).
  rewrite (Hpresent "https://idp/auth" (Sample.plain_url "https://idp/auth")
             eq_refl ltac:(discriminate) eq_refl).
  reflexivity.
Defined.

(** C9. Without an authorization endpoint in [configuration], reading
    [action] throws the missing-configuration error and leaves the state
    as it was: no request is sent, to the token endpoint, the userinfo
    endpoint or anywhere else. *)
Theorem action_without_authorization_endpoint {V : Type} (rt : Runtime)
    (config : Config.t V) (s : State) :
  OpenIDConfiguration.authorization_endpoint (configuration s) = None ->
  action rt config s
  = (inl (JS.Error "No OpenID configuration for strategy -oidc."), s)
  /\ requests (log (snd (action rt config s))) = requests (log s).
Proof.
  intros Habsent. rewrite action_unconfigured; [split; reflexivity |].
  rewrite Habsent. reflexivity.
Qed.

Lemma action_without_authorization_endpoint_witness :
  action (Sample.runtime 0) Sample.config Sample.unreachable_provider
  = (inl (JS.Error "No OpenID configuration for strategy -oidc."),
     Sample.unreachable_provider).
Proof.
  apply (action_without_authorization_endpoint (Sample.runtime 0) Sample.config
           Sample.unreachable_provider).
  reflexivity.
Defined.

(** C10. An instance starts with [configuration = {}], and neither
    reading [action] nor calling [authenticate] ever changes that or
    sends a request: every reachable state is the constructed one.  So
    on every reachable state a payload with a code or a refresh token
    makes [authenticate] throw the missing-configuration error, with
    nothing fetched. *)
Theorem fresh_instance_never_configured {V : Type} (config : Config.t V)
    (s : State) :
  reachable config s ->
  configuration s = OpenIDConfiguration.empty
  /\ log s = []
  /\ forall (rt : Runtime) (props : gmap string string),
       is_Some (props !! "code") \/ is_Some (props !! "refresh_token") ->
       authenticate rt config {| payload := JS.Object props |} s
       = (inl (JS.Error "No OpenID configuration for strategy -oidc."), s).
Proof.
  intros Hreach. rewrite (reachable_constructed_only config s Hreach).
  split; [reflexivity |]. split; [reflexivity |].
  intros rt props Hpayload.
  destruct (props !! "code") as [code |] eqn:Hcode.
  - rewrite (authenticate_code rt config props code constructed Hcode).
    apply exchange_and_verify_unconfigured. reflexivity.
  - destruct Hpayload as [[? [=]] | [code Hrefresh]].
    rewrite (authenticate_refresh_token rt config props code constructed Hcode Hrefresh).
    apply exchange_and_verify_unconfigured. reflexivity.
Qed.

Lemma fresh_instance_never_configured_witness :
  authenticate (Sample.runtime 0) Sample.config Sample.with_code
    (snd (authenticate (Sample.runtime 0) Sample.config Sample.with_code
            (snd (action (Sample.runtime 0) Sample.config constructed))))
  = (inl (JS.Error "No OpenID configuration for strategy -oidc."),
     snd (authenticate (Sample.runtime 0) Sample.config Sample.with_code
            (snd (action (Sample.runtime 0) Sample.config constructed)))).
Proof.
  apply (fresh_instance_never_configured Sample.config).
  - apply reachable_authenticate, reachable_action, reachable_constructed.
  - left. vm_compute. eauto.
Defined.

(** * Further properties of the strategy *)

Lemma requests_app (l l' : list Event) :
  requests (l ++ l') = (requests l ++ requests l')%list.
Proof.
  induction l as [| [req | err | context data] l IH]; simpl; congruence.
Qed.

Lemma verify_calls_app (l l' : list Event) :
  verify_calls (l ++ l') = (verify_calls l + verify_calls l')%nat.
Proof.
  induction l as [| [req | err | context data] l IH]; simpl; congruence.
Qed.

Lemma truthy_false (url : option string) :
  JS.truthy url = false -> url = None \/ url = Some "".
Proof.
  destruct url as [u |]; simpl; [| auto].
  destruct (String.eqb_spec u ""); [subst; auto | discriminate].
Qed.

(** ** The userinfo request *)

Section UserInfo.

Variable rt : Runtime.

Lemma userinfo_rejected (tok : Token.t) (url : string) (s : State)
    (cause : JS.Exception) :
  OpenIDConfiguration.userinfo_endpoint (configuration s) = Some url ->
  url <> "" ->
  fetch rt (log s) (userinfo_request url tok) = inl cause ->
  userinfo rt tok s
  = (inl userinfo_failed,
     {| configuration := configuration s;
        log := (log s ++ [Fetch (userinfo_request url tok); ConsoleTrace cause])%list |}).
Proof.
  intros Hurl Hne Hfetch. unfold userinfo. run.
  rewrite Hurl, (truthy_nonempty _ Hne). simpl. rewrite Hfetch.
  simpl. rewrite <- app_assoc. reflexivity.
Qed.

Lemma userinfo_undecodable (tok : Token.t) (url : string) (s : State)
    (res : Response) (cause : JS.Exception) :
  OpenIDConfiguration.userinfo_endpoint (configuration s) = Some url ->
  url <> "" ->
  fetch rt (log s) (userinfo_request url tok) = inr res ->
  json_OIDCUserInfo rt res = inl cause ->
  userinfo rt tok s
  = (inl userinfo_failed,
     {| configuration := configuration s;
        log := (log s ++ [Fetch (userinfo_request url tok); ConsoleTrace cause])%list |}).
Proof.
  intros Hurl Hne Hfetch Hjson. unfold userinfo. run.
  rewrite Hurl, (truthy_nonempty _ Hne). simpl. rewrite Hfetch. simpl.
  rewrite Hjson. simpl. rewrite <- app_assoc. reflexivity.
Qed.

(** X1. Without a userinfo endpoint [userinfo] throws the
    missing-configuration error and sends nothing.  With one, a rejected
    [fetch] and a body that does not decode both end in the one error
    "UserInfo endpoint responded with a non-OK status code."; the cause
    is passed to [console.trace] and is not part of what is thrown. *)
Theorem userinfo_errors (tok : Token.t) (s : State) :
  (JS.truthy (OpenIDConfiguration.userinfo_endpoint (configuration s)) = false ->
   userinfo rt tok s
   = (inl (JS.Error "No OpenID configuration for strategy -oidc."), s))
  /\ (forall (url : string) (cause : JS.Exception),
        OpenIDConfiguration.userinfo_endpoint (configuration s) = Some url ->
        url <> "" ->
        let request := userinfo_request url tok in
        fetch rt (log s) request = inl cause
        \/ (exists res, fetch rt (log s) request = inr res
                        /\ json_OIDCUserInfo rt res = inl cause) ->
        userinfo rt tok s
        = (inl (JS.Error "UserInfo endpoint responded with a non-OK status code."),
           {| configuration := configuration s;
              log := (log s ++ [Fetch request; ConsoleTrace cause])%list |})).
Proof.
  split.
  - apply userinfo_unconfigured.
  - intros url cause Hurl Hne request [Hfetch | (res & Hfetch & Hjson)].
    + exact (userinfo_rejected tok url s cause Hurl Hne Hfetch).
    + exact (userinfo_undecodable tok url s res cause Hurl Hne Hfetch Hjson).
Qed.

(** X2. With a userinfo endpoint, [userinfo] sends exactly one request,
    whatever comes back: a GET to that endpoint, without a body, whose
    only header is [authorization], the token type and the access token
    separated by one space.  Nothing else is recorded but the cause of a
    failure. *)
Theorem userinfo_sends_one_request (tok : Token.t) (url : string) (s : State) :
  OpenIDConfiguration.userinfo_endpoint (configuration s) = Some url ->
  url <> "" ->
  requests (log (snd (userinfo rt tok s)))
  = (requests (log s)
     ++ [ {| req_url := url;
             req_method := "GET";
             req_headers :=
               [("authorization",
                 (Token.token_type tok ++ " " ++ Token.access_token tok)%string)];
             req_body := None |} ])%list
  /\ verify_calls (log (snd (userinfo rt tok s))) = verify_calls (log s).
Proof.
  intros Hurl Hne.
  destruct (fetch rt (log s) (userinfo_request url tok)) as [cause | res] eqn:Hfetch.
  { rewrite (userinfo_rejected tok url s cause Hurl Hne Hfetch). simpl.
    rewrite requests_app, verify_calls_app. simpl. split; [reflexivity | lia]. }
  destruct (json_OIDCUserInfo rt res) as [cause | ui] eqn:Hjson.
  { rewrite (userinfo_undecodable tok url s res cause Hurl Hne Hfetch Hjson). simpl.
    rewrite requests_app, verify_calls_app. simpl. split; [reflexivity | lia]. }
  rewrite (userinfo_answered rt tok url s res ui Hurl Hne Hfetch Hjson). simpl.
  rewrite requests_app, verify_calls_app. simpl. split; [reflexivity | lia].
Qed.

End UserInfo.

Lemma userinfo_errors_witness :
  userinfo (Sample.runtime 0) Sample.AT1 constructed
  = (inl (JS.Error "No OpenID configuration for strategy -oidc."), constructed)
  /\ userinfo (Sample.runtime 0) Sample.AT1 Sample.userinfo_down
     = (inl (JS.Error "UserInfo endpoint responded with a non-OK status code."),
        {| configuration := configuration Sample.userinfo_down;
           log := [ Fetch (userinfo_request "https://down/userinfo" Sample.AT1);
                    ConsoleTrace (JS.TypeError "fetch failed") ] |}).
Proof.
  split.
  - apply (userinfo_errors (Sample.runtime 0) Sample.AT1 constructed). reflexivity.
  - apply (proj2 (userinfo_errors (Sample.runtime 0) Sample.AT1 Sample.userinfo_down)
             "https://down/userinfo" (JS.TypeError "fetch failed") eq_refl
             ltac:(discriminate) (or_introl eq_refl)).
Defined.

Lemma userinfo_sends_one_request_witness :
  requests (log (snd (userinfo (Sample.runtime 0) Sample.AT1 Sample.configured)))
  = [ {| req_url := "https://idp/userinfo";
         req_method := "GET";
         req_headers := [("authorization", "Bearer AT1")];
         req_body := None |} ].
Proof.
  apply (userinfo_sends_one_request (Sample.runtime 0) Sample.AT1
           "https://idp/userinfo" Sample.configured eq_refl ltac:(discriminate)).
Defined.

(** ** Discovery *)

Section Discovery.

Context {V : Type}.
Variable rt : Runtime.
Variable config : Config.t V.

Lemma init_unresolved (s : State) (e : JS.Exception) :
  new_URL rt ".well-known/openid-configuration" (Some (Config.serverUrl config))
  = inl e ->
  init rt config s = (inl e, s).
Proof. intros H. unfold init. run. rewrite H. reflexivity. Qed.

Lemma init_resolved (s : State) (url : URL.t) :
  new_URL rt ".well-known/openid-configuration" (Some (Config.serverUrl config))
  = inr url ->
  init rt config s
  = match fetch rt (log s) (discovery_request url) with
    | inl e =>
        (inl e, {| configuration := configuration s;
                   log := (log s ++ [Fetch (discovery_request url)])%list |})
    | inr res =>
        match json_OpenIDConfiguration rt res with
        | inl e =>
            (inl e, {| configuration := configuration s;
                       log := (log s ++ [Fetch (discovery_request url)])%list |})
        | inr document =>
            (inr tt, {| configuration := document;
                        log := (log s ++ [Fetch (discovery_request url)])%list |})
        end
    end.
Proof.
  intros H. unfold init. run. rewrite H. simpl.
  unfold discovery_request.
  destruct (fetch rt (log s) _) as [e | res]; simpl; [reflexivity |].
  destruct (json_OpenIDConfiguration rt res); reflexivity.
Qed.

(** X3. [init] does not look at what [configuration] already holds:
    whenever the server URL resolves it sends one GET for the discovery
    document, also on an instance that is configured already, and when
    the document decodes it replaces [configuration] as a whole. *)
Theorem init_fetches_every_time (s : State) (url : URL.t) :
  new_URL rt ".well-known/openid-configuration" (Some (Config.serverUrl config))
  = inr url ->
  requests (log (snd (init rt config s)))
  = (requests (log s)
     ++ [ {| req_url := URL.href url; req_method := "GET"; req_headers := [];
             req_body := None |} ])%list
  /\ (forall document : OpenIDConfiguration.t,
        fst (init rt config s) = inr tt ->
        (exists res, fetch rt (log s) (discovery_request url) = inr res
                     /\ json_OpenIDConfiguration rt res = inr document) ->
        configuration (snd (init rt config s)) = document).
Proof.
  intros Hurl. rewrite (init_resolved s url Hurl).
  destruct (fetch rt (log s) (discovery_request url)) as [e | res]; simpl.
  { rewrite requests_app. split; [reflexivity |]. discriminate. }
  destruct (json_OpenIDConfiguration rt res) as [e | document] eqn:Hjson; simpl;
    rewrite requests_app; (split; [reflexivity |]); [discriminate |].
  intros document' _ (res' & [= <-] & Hjson'). congruence.
Qed.

(** X4. When [init] fails, [configuration] is what it was, and the error
    is the one the URL constructor, [fetch] or [res.json()] gave,
    unwrapped; when it was the URL constructor, nothing was sent. *)
Theorem init_failure (s s' : State) (e : JS.Exception) :
  init rt config s = (inl e, s') ->
  configuration s' = configuration s
  /\ ((new_URL rt ".well-known/openid-configuration"
         (Some (Config.serverUrl config)) = inl e /\ s' = s)
      \/ exists url,
           new_URL rt ".well-known/openid-configuration"
             (Some (Config.serverUrl config)) = inr url
           /\ log s' = (log s ++ [Fetch (discovery_request url)])%list
           /\ (fetch rt (log s) (discovery_request url) = inl e
               \/ exists res,
                    fetch rt (log s) (discovery_request url) = inr res
                    /\ json_OpenIDConfiguration rt res = inl e)).
Proof.
  destruct (new_URL rt ".well-known/openid-configuration"
              (Some (Config.serverUrl config))) as [e0 | url] eqn:Hurl.
  { rewrite (init_unresolved s e0 Hurl). intros [= -> ->]. auto. }
  rewrite (init_resolved s url Hurl).
  destruct (fetch rt (log s) (discovery_request url)) as [e1 | res] eqn:Hfetch.
  { intros [= -> <-]. split; [reflexivity |]. right. exists url. auto. }
  destruct (json_OpenIDConfiguration rt res) as [e2 | document] eqn:Hjson;
    [| discriminate].
  intros [= -> <-]. split; [reflexivity |]. right. exists url.
  split; [reflexivity |]. split; [reflexivity |]. right. eauto.
Qed.

(** X5. [init] followed by [authenticate]: when the discovery document
    names a token and a userinfo endpoint, both answer and verify
    returns (an outcome or nothing), a payload with a code is exchanged at the endpoints of the
    document just fetched, and the outcome of verify is returned after
    the three requests and the call of verify, in this order. *)
Theorem init_then_authenticate (props : gmap string string) (code : string)
    (s : State) (url : URL.t) (document : OpenIDConfiguration.t)
    (token_url userinfo_url : string) (res0 res1 res2 : Response)
    (tok : Token.t) (ui : OIDCUserInfo.t)
    (v : option (KredsAuthenticationOutcome V)) :
  let context := {| payload := JS.Object props |} in
  let request0 := discovery_request url in
  let request1 := token_request config token_url authorization_code code in
  let request2 := userinfo_request userinfo_url tok in
  let now := Date_now rt (log s ++ [Fetch request0; Fetch request1; Fetch request2]) in
  let data := {| Data.token := tok; Data.userInfo := ui;
                 Data.expiresAt := Some (expiry rt now tok) |} in
  new_URL rt ".well-known/openid-configuration" (Some (Config.serverUrl config))
  = inr url ->
  fetch rt (log s) request0 = inr res0 ->
  json_OpenIDConfiguration rt res0 = inr document ->
  OpenIDConfiguration.token_endpoint document = Some token_url ->
  token_url <> "" ->
  OpenIDConfiguration.userinfo_endpoint document = Some userinfo_url ->
  userinfo_url <> "" ->
  props !! "code" = Some code ->
  fetch rt (log s ++ [Fetch request0]) request1 = inr res1 ->
  json_Token rt res1 = inr tok ->
  fetch rt (log s ++ [Fetch request0; Fetch request1]) request2 = inr res2 ->
  json_OIDCUserInfo rt res2 = inr ui ->
  Config.verify config context data = inr v ->
  (init rt config ≫= fun _ => authenticate rt config context) s
  = (inr v,
     {| configuration := document;
        log := (log s ++ [Fetch request0; Fetch request1; Fetch request2;
                          Verify context data])%list |}).
Proof.
  intros context request0 request1 request2 now data
    Hurl Hf0 Hj0 Ht Htne Hu Hune Hcode Hf1 Hj1 Hf2 Hj2 Hv.
  subst context request0 request1 request2 now data.
  unfold mbind, M_bind, bind.
  rewrite (init_resolved s url Hurl), Hf0, Hj0.
  rewrite (authenticate_code_verified rt config props code
             {| configuration := document;
                log := (log s ++ [Fetch (discovery_request url)])%list |}
             token_url userinfo_url res1 res2 tok ui v); simpl;
    rewrite <- ?app_assoc; simpl; try assumption.
  reflexivity.
Qed.

End Discovery.

Lemma init_fetches_every_time_witness :
  requests (log (snd (init (Sample.runtime 0) Sample.config Sample.configured)))
  = [ {| req_url := "https://idp/.well-known/openid-configuration";
         req_method := "GET"; req_headers := []; req_body := None |} ].
Proof.
  apply (init_fetches_every_time (Sample.runtime 0) Sample.config Sample.configured
           (Sample.plain_url "https://idp/.well-known/openid-configuration")
           eq_refl).
Defined.

Lemma init_failure_witness :
  configuration Sample.down = configuration Sample.down
  /\ ((new_URL (Sample.runtime 0) ".well-known/openid-configuration"
         (Some (Config.serverUrl Sample.misconfigured))
       = inl (JS.TypeError "Invalid base URL") /\ Sample.down = Sample.down)
      \/ exists url,
           new_URL (Sample.runtime 0) ".well-known/openid-configuration"
             (Some (Config.serverUrl Sample.misconfigured)) = inr url
           /\ log Sample.down = (log Sample.down ++ [Fetch (discovery_request url)])%list
           /\ (fetch (Sample.runtime 0) (log Sample.down) (discovery_request url)
               = inl (JS.TypeError "Invalid base URL")
               \/ exists res,
                    fetch (Sample.runtime 0) (log Sample.down) (discovery_request url)
                    = inr res
                    /\ json_OpenIDConfiguration (Sample.runtime 0) res
                       = inl (JS.TypeError "Invalid base URL"))).
Proof.
  apply (init_failure (Sample.runtime 0) Sample.misconfigured Sample.down
           Sample.down (JS.TypeError "Invalid base URL")).
  reflexivity.
Defined.

Lemma init_then_authenticate_witness :
  (init (Sample.runtime 0) Sample.config
   ≫= fun _ => authenticate (Sample.runtime 0) Sample.config Sample.with_code)
    constructed
  = (inr (Some (FromVerify "u1")),
     {| configuration := Sample.idp;
        log :=
          [ Fetch (discovery_request
                     (Sample.plain_url "https://idp/.well-known/openid-configuration"));
            Fetch (token_request Sample.config "https://idp/token"
                     authorization_code "AUTHCODE");
            Fetch (userinfo_request "https://idp/userinfo" Sample.AT1);
            Verify Sample.with_code
              {| Data.token := Sample.AT1;
                 Data.userInfo := Sample.u1;
                 Data.expiresAt :=
                   Some (expiry (Sample.runtime 0) 0 Sample.AT1) |} ] |}).
Proof.
  apply (init_then_authenticate (Sample.runtime 0) Sample.config
           {[ "code" := "AUTHCODE" ]} "AUTHCODE" constructed
           (Sample.plain_url "https://idp/.well-known/openid-configuration")
           Sample.idp "https://idp/token" "https://idp/userinfo"
           {| res_status := 200; res_body := "configuration" |}
           {| res_status := 200; res_body := "token" |}
           {| res_status := 200; res_body := "userinfo" |}
           Sample.AT1 Sample.u1 (Some (FromVerify "u1")));
    solve [reflexivity | discriminate].
Defined.

(** ** The redirect action *)

Section Action.

Context {V : Type}.
Variable rt : Runtime.
Variable config : Config.t V.

Lemma redirectUrl_unparsable (s : State) (endpoint : string) (e : JS.Exception) :
  OpenIDConfiguration.authorization_endpoint (configuration s) = Some endpoint ->
  endpoint <> "" ->
  new_URL rt endpoint None = inl e ->
  redirectUrl rt config s = (inl e, s).
Proof.
  intros Hendpoint Hne Hparse. unfold redirectUrl. run.
  rewrite Hendpoint, (truthy_nonempty _ Hne). simpl. rewrite Hparse. reflexivity.
Qed.

(** X6. Whenever reading [action] succeeds, the action is a redirect
    whose URL is a non-empty string, the very value of [redirectUrl],
    and the state is as before: nothing was sent. *)
Theorem action_is_redirect (s s' : State) (a : KredsClientAction) :
  action rt config s = (inr a, s') ->
  s' = s
  /\ action_type a = "redirect"
  /\ exists url,
       action_url a = Some url /\ url <> ""
       /\ redirectUrl rt config s = (inr (Some url), s).
Proof.
  unfold action. run.
  pose proof (redirectUrl_state rt config s) as Hstate.
  destruct (redirectUrl rt config s) as [[e | url] s1] eqn:Hfirst; simpl in Hstate;
    subst s1; [discriminate |].
  destruct (JS.truthy url) eqn:Htruthy; simpl; [| discriminate].
  rewrite Hfirst. intros [= <- <-].
  destruct (truthy_Some url Htruthy) as (u & -> & Hne).
  simpl. split; [reflexivity |]. split; [reflexivity |].
  exists u. split; [reflexivity |]. split; [exact Hne | reflexivity].
Qed.

(** X7. An authorization endpoint that the URL constructor refuses makes
    [redirectUrl] and [action] throw the constructor's error as it is,
    not the missing-configuration error; nothing is sent. *)
Theorem action_unparsable_endpoint (s : State) (endpoint : string)
    (e : JS.Exception) :
  OpenIDConfiguration.authorization_endpoint (configuration s) = Some endpoint ->
  endpoint <> "" ->
  new_URL rt endpoint None = inl e ->
  redirectUrl rt config s = (inl e, s) /\ action rt config s = (inl e, s).
Proof.
  intros Hendpoint Hne Hparse.
  pose proof (redirectUrl_unparsable s endpoint e Hendpoint Hne Hparse) as H.
  split; [exact H |]. unfold action. run. rewrite H. reflexivity.
Qed.

(** X8. An endpoint given as the empty string counts as missing: [action],
    [token] and [userinfo] throw the missing-configuration error each,
    and none sends a request. *)
Theorem empty_endpoint_is_missing (s : State) :
  (OpenIDConfiguration.authorization_endpoint (configuration s) = Some "" ->
   action rt config s
   = (inl (JS.Error "No OpenID configuration for strategy -oidc."), s))
  /\ (OpenIDConfiguration.token_endpoint (configuration s) = Some "" ->
      forall (grantType : GrantType) (code : string),
        token rt config grantType code s
        = (inl (JS.Error "No OpenID configuration for strategy -oidc."), s))
  /\ (OpenIDConfiguration.userinfo_endpoint (configuration s) = Some "" ->
      forall tok : Token.t,
        userinfo rt tok s
        = (inl (JS.Error "No OpenID configuration for strategy -oidc."), s)).
Proof.
  split; [| split].
  - intros H. apply action_unconfigured. rewrite H. reflexivity.
  - intros H grantType code. apply token_unconfigured. rewrite H. reflexivity.
  - intros H tok. apply userinfo_unconfigured. rewrite H. reflexivity.
Qed.

End Action.

Lemma action_is_redirect_witness :
  Sample.configured = Sample.configured
  /\ "redirect" = "redirect"
  /\ exists url,
       Some "https://idp/auth?response_type=code&client_id=app&scope=openid+profile&redirect_uri=https%3A%2F%2Fapp%2Fcb"
       = Some url
       /\ url <> ""
       /\ redirectUrl (Sample.runtime 0) Sample.config Sample.configured
          = (inr (Some url), Sample.configured).
Proof.
  apply (action_is_redirect (Sample.runtime 0) Sample.config Sample.configured
           Sample.configured
           {| action_type := "redirect";
              action_url := Some "https://idp/auth?response_type=code&client_id=app&scope=openid+profile&redirect_uri=https%3A%2F%2Fapp%2Fcb" |}).
  reflexivity.
Defined.

Lemma action_unparsable_endpoint_witness :
  redirectUrl (Sample.runtime 0) Sample.config Sample.down
  = (inl (JS.TypeError "Invalid URL"), Sample.down)
  /\ action (Sample.runtime 0) Sample.config Sample.down
     = (inl (JS.TypeError "Invalid URL"), Sample.down).
Proof.
  apply (action_unparsable_endpoint (Sample.runtime 0) Sample.config Sample.down
           "auth" (JS.TypeError "Invalid URL") eq_refl ltac:(discriminate) eq_refl).
Defined.

Lemma empty_endpoint_is_missing_witness :
  action (Sample.runtime 0) Sample.config Sample.blank
  = (inl (JS.Error "No OpenID configuration for strategy -oidc."), Sample.blank)
  /\ token (Sample.runtime 0) Sample.config authorization_code "abc" Sample.blank
     = (inl (JS.Error "No OpenID configuration for strategy -oidc."), Sample.blank)
  /\ userinfo (Sample.runtime 0) Sample.AT1 Sample.blank
     = (inl (JS.Error "No OpenID configuration for strategy -oidc."), Sample.blank).
Proof.
  destruct (empty_endpoint_is_missing (Sample.runtime 0) Sample.config Sample.blank)
    as (Haction & Htoken & Huserinfo).
  split; [exact (Haction eq_refl) |].
  split; [exact (Htoken eq_refl authorization_code "abc") |].
  exact (Huserinfo eq_refl Sample.AT1).
Defined.

(** ** All the ways of [authenticate] *)

Section Ways.

Context {V : Type}.
Variable rt : Runtime.
Variable config : Config.t V.

(** The four ways of the payload. *)
Lemma authenticate_cases (context : KredsContext) (s : State) :
  (JS.ToBoolean (payload context) = false
   /\ authenticate rt config context s = (inr None, s))
  \/ (JS.ToBoolean (payload context) = true
      /\ (forall props, payload context <> JS.Object props)
      /\ exists message,
           authenticate rt config context s = (inl (JS.TypeError message), s))
  \/ (exists props,
        payload context = JS.Object props
        /\ props !! "code" = None /\ props !! "refresh_token" = None
        /\ authenticate rt config context s
           = (inl (JS.Error "Not supported yet."), s))
  \/ (exists props grantType code,
        payload context = JS.Object props
        /\ (props !! "code" = Some code /\ grantType = authorization_code
            \/ props !! "code" = None /\ props !! "refresh_token" = Some code
               /\ grantType = refresh_token)
        /\ authenticate rt config context s
           = exchange_and_verify rt config context grantType code s).
Proof.
  destruct (JS.ToBoolean (payload context)) eqn:Htruthy.
  2: { left. split; [reflexivity |]. apply authenticate_falsy. assumption. }
  right.
  destruct context as [p]. simpl in Htruthy.
  destruct p as [| | b | n | | str | props];
    try (left; split; [reflexivity |]; split; [intros props; discriminate |];
         apply authenticate_primitive_payload;
         [assumption | intros props; discriminate]).
  right.
  destruct (props !! "code") as [code |] eqn:Hcode.
  { right. exists props, authorization_code, code.
    split; [reflexivity |]. split; [auto |]. apply authenticate_code. assumption. }
  destruct (props !! "refresh_token") as [code |] eqn:Hrefresh.
  { right. exists props, refresh_token, code.
    split; [reflexivity |]. split; [auto |].
    apply authenticate_refresh_token; assumption. }
  left. exists props. repeat split; try assumption.
  apply authenticate_neither; assumption.
Qed.

(** The ways of the exchange: what is thrown or returned, and the events
    added to the log, in their order. *)
Lemma exchange_and_verify_cases (context : KredsContext) (grantType : GrantType)
    (code : string) (s : State) :
  let request1 :=
    token_request config
      (default "" (OpenIDConfiguration.token_endpoint (configuration s)))
      grantType code in
  let request2 :=
    userinfo_request
      (default "" (OpenIDConfiguration.userinfo_endpoint (configuration s))) in
  exists (result : JS.Exception + option (KredsAuthenticationOutcome V))
         (events : list Event),
    exchange_and_verify rt config context grantType code s
    = (result, {| configuration := configuration s;
                  log := (log s ++ events)%list |})
    /\ ((result = inl no_configuration /\ events = [])
        \/ (exists cause,
              result = inl token_failed
              /\ events = [Fetch request1; ConsoleTrace cause])
        \/ (result = inl no_configuration /\ events = [Fetch request1])
        \/ (exists tok cause,
              result = inl userinfo_failed
              /\ events = [Fetch request1; Fetch (request2 tok); ConsoleTrace cause])
        \/ (exists tok data,
              result = Config.verify config context data
              /\ events = [Fetch request1; Fetch (request2 tok);
                           Verify context data])).
Proof.
  unfold exchange_and_verify, token, userinfo. run.
  destruct s as [c l]. simpl.
  destruct (JS.truthy (OpenIDConfiguration.token_endpoint c)); simpl.
  2: { eexists _, []. rewrite app_nil_r. split; [reflexivity |]. auto. }
  destruct (fetch rt l _) as [cause | res1]; simpl.
  { eexists _, [_; _]. rewrite <- app_assoc. split; [reflexivity |].
    right; left. eauto. }
  destruct (json_Token rt res1) as [cause | tok]; simpl.
  { eexists _, [_; _]. rewrite <- app_assoc. split; [reflexivity |].
    right; left. eauto. }
  destruct (JS.truthy (OpenIDConfiguration.userinfo_endpoint c)); simpl.
  2: { eexists _, [_]. split; [reflexivity |]. right; right; left. eauto. }
  destruct (fetch rt (l ++ _) _) as [cause | res2]; simpl.
  { eexists _, [_; _; _]. rewrite <- !app_assoc. split; [reflexivity |].
    right; right; right; left. eauto. }
  destruct (json_OIDCUserInfo rt res2) as [cause | ui]; simpl.
  { eexists _, [_; _; _]. rewrite <- !app_assoc. split; [reflexivity |].
    right; right; right; left. eauto. }
  eexists _, [_; _; _]. rewrite <- !app_assoc. split; [reflexivity |].
  right; right; right; right. exists tok. eexists. split; reflexivity.
Qed.

End Ways.

Section Bounds.

Context {V : Type}.
Variable rt : Runtime.
Variable config : Config.t V.

(** X9. One call of [authenticate], whatever the payload and whatever
    the runtime answers, never writes [configuration] and adds to the
    log one of five runs of events: nothing; the POST; the POST and a
    traced cause; the POST, the GET and a traced cause; or the POST, the
    GET and then one call of verify with this context.  So it sends at
    most two requests and calls verify at most once, and verify comes
    after both requests and is the last thing done. *)
Theorem authenticate_effects_bounded (context : KredsContext) (s : State) :
  exists events : list Event,
    snd (authenticate rt config context s)
    = {| configuration := configuration s; log := (log s ++ events)%list |}
    /\ (events = []
        \/ (exists request1,
              req_method request1 = "POST" /\ events = [Fetch request1])
        \/ (exists request1 cause,
              req_method request1 = "POST"
              /\ events = [Fetch request1; ConsoleTrace cause])
        \/ (exists request1 request2 cause,
              req_method request1 = "POST" /\ req_method request2 = "GET"
              /\ events = [Fetch request1; Fetch request2; ConsoleTrace cause])
        \/ (exists request1 request2 data,
              req_method request1 = "POST" /\ req_method request2 = "GET"
              /\ events = [Fetch request1; Fetch request2; Verify context data]))
    /\ (length (requests events) <= 2)%nat
    /\ (verify_calls events <= 1)%nat
    /\ (verify_calls events = 1%nat -> length (requests events) = 2%nat).
Proof.
  assert (s = {| configuration := configuration s; log := (log s ++ [])%list |})
    as Hsame by (destruct s; simpl; rewrite app_nil_r; reflexivity).
  destruct (authenticate_cases rt config context s)
    as [[_ ->] | [(_ & _ & message & ->)
       | [(props & _ & _ & _ & ->) | (props & g & code & _ & _ & ->)]]];
    try (exists []; simpl; split; [exact Hsame |]; split; [auto |];
         repeat split; lia).
  destruct (exchange_and_verify_cases rt config context g code s)
    as (result & events & -> & Hways).
  exists events. split; [reflexivity |].
  destruct Hways as [[_ ->] | [(c & _ & ->) | [[_ ->]
    | [(tok & c & _ & ->) | (tok & d & _ & ->)]]]];
    (split; [| simpl; repeat split; lia]).
  - auto.
  - right; right; left. eexists _, c.
    refine (conj _ eq_refl). reflexivity.
  - right; left. eexists.
    refine (conj _ eq_refl). reflexivity.
  - right; right; right; left. eexists _, _, c.
    refine (conj _ (conj _ eq_refl)); reflexivity.
  - right; right; right; right. eexists _, _, d.
    refine (conj _ (conj _ eq_refl)); reflexivity.
Qed.

(** X10. Every error [authenticate] throws is one of: the [TypeError] of
    the [in] operator on a payload that is not an object, "Not supported
    yet.", the missing-configuration error, the token-endpoint error,
    the userinfo-endpoint error, or what the verify function threw.  An
    error of [fetch] or of [res.json()] never reaches the caller. *)
Theorem authenticate_error_taxonomy (context : KredsContext) (s s' : State)
    (e : JS.Exception) :
  authenticate rt config context s = (inl e, s') ->
  ((exists message, e = JS.TypeError message)
   /\ forall props, payload context <> JS.Object props)
  \/ e = JS.Error "Not supported yet."
  \/ e = JS.Error "No OpenID configuration for strategy -oidc."
  \/ e = JS.Error "Token endpoint responded with a non-OK status code."
  \/ e = JS.Error "UserInfo endpoint responded with a non-OK status code."
  \/ exists data, Config.verify config context data = inl e.
Proof.
  destruct (authenticate_cases rt config context s)
    as [[_ ->] | [(_ & Hprim & message & ->)
       | [(props & _ & _ & _ & ->) | (props & g & code & _ & _ & ->)]]].
  - discriminate.
  - intros [= <- _]. left. eauto.
  - intros [= <- _]. auto.
  - destruct (exchange_and_verify_cases rt config context g code s)
      as (result & events & -> & Hways).
    intros [= -> _].
    destruct Hways as [[[= ->] _] | [(c & [= ->] & _) | [[[= ->] _]
      | [(tok & c & [= ->] & _) | (tok & d & Hverify & _)]]]];
      auto 6.
    do 5 right. exists d. symmetry. exact Hverify.
Qed.

(** X11. When [authenticate] returns rather than throws: with a falsy
    payload the result is [undefined] and nothing happened; with a
    truthy payload the result is exactly what the verify function
    returned for this context, an outcome or [undefined] alike, and the
    call of verify is the last event. *)
Theorem authenticate_result_origin (context : KredsContext) (s s' : State)
    (result : option (KredsAuthenticationOutcome V)) :
  authenticate rt config context s = (inr result, s') ->
  (JS.ToBoolean (payload context) = false /\ result = None /\ s' = s)
  \/ (JS.ToBoolean (payload context) = true
      /\ exists data previous,
           Config.verify config context data = inr result
           /\ log s' = (previous ++ [Verify context data])%list).
Proof.
  destruct (authenticate_cases rt config context s)
    as [[Hfalsy ->] | [(_ & _ & message & ->)
       | [(props & _ & _ & _ & ->) | (props & g & code & Hobject & _ & ->)]]];
    try discriminate.
  - intros [= <- <-]. auto.
  - destruct (exchange_and_verify_cases rt config context g code s)
      as (result' & events & -> & Hways).
    intros [= -> <-].
    destruct Hways as [[[=] _] | [(c & [=] & _) | [[[=] _]
      | [(tok & c & [=] & _) | (tok & d & Hverify & ->)]]]].
    right. split; [rewrite Hobject; reflexivity |].
    eexists d, (log s ++ [Fetch _; Fetch _])%list.
    split; [symmetry; exact Hverify |]. simpl. rewrite <- app_assoc. reflexivity.
Qed.

End Bounds.

Lemma authenticate_error_taxonomy_witness :
  ((exists message, JS.Error "UserInfo endpoint responded with a non-OK status code."
                    = JS.TypeError message)
   /\ forall props, payload Sample.with_code <> JS.Object props)
  \/ JS.Error "UserInfo endpoint responded with a non-OK status code."
     = JS.Error "Not supported yet."
  \/ JS.Error "UserInfo endpoint responded with a non-OK status code."
     = JS.Error "No OpenID configuration for strategy -oidc."
  \/ JS.Error "UserInfo endpoint responded with a non-OK status code."
     = JS.Error "Token endpoint responded with a non-OK status code."
  \/ JS.Error "UserInfo endpoint responded with a non-OK status code."
     = JS.Error "UserInfo endpoint responded with a non-OK status code."
  \/ exists data,
       Config.verify Sample.config Sample.with_code data
       = inl (JS.Error "UserInfo endpoint responded with a non-OK status code.").
Proof.
  apply (authenticate_error_taxonomy (Sample.runtime 0) Sample.config
           Sample.with_code Sample.userinfo_down
           (snd (authenticate (Sample.runtime 0) Sample.config Sample.with_code
                   Sample.userinfo_down))).
  reflexivity.
Defined.

Lemma authenticate_result_origin_witness :
  (JS.ToBoolean (payload Sample.with_code) = false
   /\ @None (KredsAuthenticationOutcome string) = None
   /\ snd (authenticate (Sample.runtime 0) Sample.silent Sample.with_code
             Sample.configured) = Sample.configured)
  \/ (JS.ToBoolean (payload Sample.with_code) = true
      /\ exists data previous,
           Config.verify Sample.silent Sample.with_code data = inr None
           /\ log (snd (authenticate (Sample.runtime 0) Sample.silent
                          Sample.with_code Sample.configured))
              = (previous ++ [Verify Sample.with_code data])%list).
Proof.
  apply (authenticate_result_origin (Sample.runtime 0) Sample.silent
           Sample.with_code Sample.configured).
  reflexivity.
Defined.

(** ** Where the exchange stops *)

Section Stops.

Context {V : Type}.
Variable rt : Runtime.
Variable config : Config.t V.

Lemma authenticate_selected (props : gmap string string) (grantType : GrantType)
    (value : string) (s : State) :
  selects props grantType value ->
  authenticate rt config {| payload := JS.Object props |} s
  = exchange_and_verify rt config {| payload := JS.Object props |} grantType value s.
Proof.
  intros [[Hcode ->] | (Hcode & Hrefresh & ->)].
  - apply authenticate_code. assumption.
  - apply authenticate_refresh_token; assumption.
Qed.

(** X12. When the token request is rejected or its answer does not
    decode, [authenticate] throws the token-endpoint error and stops:
    the log gains the POST and the traced cause, the userinfo endpoint
    is not asked and verify is not called. *)
Theorem authenticate_stops_at_token_failure (props : gmap string string)
    (grantType : GrantType) (value url : string) (s : State)
    (cause : JS.Exception) :
  let request := token_request config url grantType value in
  selects props grantType value ->
  OpenIDConfiguration.token_endpoint (configuration s) = Some url ->
  url <> "" ->
  fetch rt (log s) request = inl cause
  \/ (exists res, fetch rt (log s) request = inr res /\ json_Token rt res = inl cause) ->
  authenticate rt config {| payload := JS.Object props |} s
  = (inl (JS.Error "Token endpoint responded with a non-OK status code."),
     {| configuration := configuration s;
        log := (log s ++ [Fetch request; ConsoleTrace cause])%list |}).
Proof.
  intros request Hselects Hurl Hne Hfails. subst request.
  rewrite (authenticate_selected props grantType value s Hselects).
  unfold exchange_and_verify. unfold mbind at 1, M_bind at 1, bind at 1.
  destruct Hfails as [Hfetch | (res & Hfetch & Hjson)].
  - rewrite (token_rejected rt config _ _ _ _ _ Hurl Hne Hfetch). reflexivity.
  - rewrite (token_undecodable rt config _ _ _ _ _ _ Hurl Hne Hfetch Hjson).
    reflexivity.
Qed.

(** X13. The userinfo endpoint is looked up only after the token was
    obtained: with a token endpoint that grants a token and no userinfo
    endpoint, [authenticate] sends the POST, spending the code, and then
    throws the missing-configuration error. *)
Theorem authenticate_exchanges_before_userinfo_lookup (props : gmap string string)
    (grantType : GrantType) (value url : string) (s : State)
    (res : Response) (tok : Token.t) :
  let request := token_request config url grantType value in
  selects props grantType value ->
  OpenIDConfiguration.token_endpoint (configuration s) = Some url ->
  url <> "" ->
  JS.truthy (OpenIDConfiguration.userinfo_endpoint (configuration s)) = false ->
  fetch rt (log s) request = inr res ->
  json_Token rt res = inr tok ->
  authenticate rt config {| payload := JS.Object props |} s
  = (inl (JS.Error "No OpenID configuration for strategy -oidc."),
     {| configuration := configuration s;
        log := (log s ++ [Fetch request])%list |}).
Proof.
  intros request Hselects Hurl Hne Hmissing Hfetch Hjson. subst request.
  rewrite (authenticate_selected props grantType value s Hselects).
  unfold exchange_and_verify. unfold mbind at 1, M_bind at 1, bind at 1.
  rewrite (token_granted rt config _ _ _ _ _ _ Hurl Hne Hfetch Hjson).
  cbv beta iota. unfold mbind at 1, M_bind at 1, bind at 1.
  rewrite userinfo_unconfigured by exact Hmissing. reflexivity.
Qed.

(** X14. When the userinfo request is rejected or its answer does not
    decode, [authenticate] throws the userinfo-endpoint error after the
    two requests; the token obtained is dropped and verify is not
    called. *)
Theorem authenticate_stops_at_userinfo_failure (props : gmap string string)
    (grantType : GrantType) (value token_url userinfo_url : string) (s : State)
    (res1 : Response) (tok : Token.t) (cause : JS.Exception) :
  let request1 := token_request config token_url grantType value in
  let request2 := userinfo_request userinfo_url tok in
  selects props grantType value ->
  OpenIDConfiguration.token_endpoint (configuration s) = Some token_url ->
  token_url <> "" ->
  OpenIDConfiguration.userinfo_endpoint (configuration s) = Some userinfo_url ->
  userinfo_url <> "" ->
  fetch rt (log s) request1 = inr res1 ->
  json_Token rt res1 = inr tok ->
  fetch rt (log s ++ [Fetch request1]) request2 = inl cause
  \/ (exists res2, fetch rt (log s ++ [Fetch request1]) request2 = inr res2
                   /\ json_OIDCUserInfo rt res2 = inl cause) ->
  authenticate rt config {| payload := JS.Object props |} s
  = (inl (JS.Error "UserInfo endpoint responded with a non-OK status code."),
     {| configuration := configuration s;
        log := (log s ++ [Fetch request1; Fetch request2; ConsoleTrace cause])%list |}).
Proof.
  intros request1 request2 Hselects Ht Htne Hu Hune Hf1 Hj1 Hfails.
  subst request1 request2.
  rewrite (authenticate_selected props grantType value s Hselects).
  unfold exchange_and_verify. unfold mbind at 1, M_bind at 1, bind at 1.
  rewrite (token_granted rt config _ _ _ _ _ _ Ht Htne Hf1 Hj1).
  cbv beta iota. unfold mbind at 1, M_bind at 1, bind at 1.
  destruct Hfails as [Hf2 | (res2 & Hf2 & Hj2)].
  - rewrite (userinfo_rejected rt tok userinfo_url
               {| configuration := configuration s;
                  log := (log s ++ [Fetch (token_request config token_url grantType value)])%list |}
               cause Hu Hune Hf2).
    simpl. rewrite <- app_assoc. reflexivity.
  - rewrite (userinfo_undecodable rt tok userinfo_url
               {| configuration := configuration s;
                  log := (log s ++ [Fetch (token_request config token_url grantType value)])%list |}
               res2 cause Hu Hune Hf2 Hj2).
    simpl. rewrite <- app_assoc. reflexivity.
Qed.

(** The exchange up to the call of verify. *)
Lemma exchange_and_verify_reaches_verify (context : KredsContext)
    (grantType : GrantType) (value token_url userinfo_url : string) (s : State)
    (res1 res2 : Response) (tok : Token.t) (ui : OIDCUserInfo.t) :
  let request1 := token_request config token_url grantType value in
  let request2 := userinfo_request userinfo_url tok in
  let now := Date_now rt (log s ++ [Fetch request1; Fetch request2]) in
  let data := {| Data.token := tok; Data.userInfo := ui;
                 Data.expiresAt := Some (expiry rt now tok) |} in
  OpenIDConfiguration.token_endpoint (configuration s) = Some token_url ->
  token_url <> "" ->
  OpenIDConfiguration.userinfo_endpoint (configuration s) = Some userinfo_url ->
  userinfo_url <> "" ->
  fetch rt (log s) request1 = inr res1 ->
  json_Token rt res1 = inr tok ->
  fetch rt (log s ++ [Fetch request1]) request2 = inr res2 ->
  json_OIDCUserInfo rt res2 = inr ui ->
  exchange_and_verify rt config context grantType value s
  = (Config.verify config context data,
     {| configuration := configuration s;
        log := (log s ++ [Fetch request1; Fetch request2; Verify context data])%list |}).
Proof.
  intros request1 request2 now data Ht Htne Hu Hune Hf1 Hj1 Hf2 Hj2.
  subst request1 request2 now data.
  unfold exchange_and_verify.
  unfold mbind at 1, M_bind at 1, bind at 1.
  rewrite (token_granted rt config _ _ _ _ _ _ Ht Htne Hf1 Hj1).
  cbv beta iota. unfold mbind at 1, M_bind at 1, bind at 1.
  rewrite (userinfo_answered rt tok userinfo_url
             {| configuration := configuration s;
                log := (log s ++ [Fetch (token_request config token_url grantType value)])%list |}
             res2 ui Hu Hune Hf2 Hj2).
  run. rewrite <- !app_assoc. reflexivity.
Qed.

(** X15. What the verify function throws is what [authenticate] throws,
    unchanged, after the two requests and the one call of verify. *)
Theorem authenticate_verify_throws (props : gmap string string)
    (grantType : GrantType) (value token_url userinfo_url : string) (s : State)
    (res1 res2 : Response) (tok : Token.t) (ui : OIDCUserInfo.t)
    (e : JS.Exception) :
  let context := {| payload := JS.Object props |} in
  let request1 := token_request config token_url grantType value in
  let request2 := userinfo_request userinfo_url tok in
  let now := Date_now rt (log s ++ [Fetch request1; Fetch request2]) in
  let data := {| Data.token := tok; Data.userInfo := ui;
                 Data.expiresAt := Some (expiry rt now tok) |} in
  selects props grantType value ->
  OpenIDConfiguration.token_endpoint (configuration s) = Some token_url ->
  token_url <> "" ->
  OpenIDConfiguration.userinfo_endpoint (configuration s) = Some userinfo_url ->
  userinfo_url <> "" ->
  fetch rt (log s) request1 = inr res1 ->
  json_Token rt res1 = inr tok ->
  fetch rt (log s ++ [Fetch request1]) request2 = inr res2 ->
  json_OIDCUserInfo rt res2 = inr ui ->
  Config.verify config context data = inl e ->
  authenticate rt config context s
  = (inl e,
     {| configuration := configuration s;
        log := (log s ++ [Fetch request1; Fetch request2; Verify context data])%list |}).
Proof.
  intros context request1 request2 now data Hselects Ht Htne Hu Hune Hf1 Hj1 Hf2 Hj2 Hv.
  subst context request1 request2 now data.
  rewrite (authenticate_selected props grantType value s Hselects).
  rewrite (exchange_and_verify_reaches_verify _ grantType value token_url userinfo_url
             s res1 res2 tok ui Ht Htne Hu Hune Hf1 Hj1 Hf2 Hj2).
  rewrite Hv. reflexivity.
Qed.


End Stops.

Lemma authenticate_stops_at_token_failure_witness :
  authenticate (Sample.runtime 0) Sample.config Sample.with_code Sample.down
  = (inl (JS.Error "Token endpoint responded with a non-OK status code."),
     {| configuration := configuration Sample.down;
        log := [ Fetch (token_request Sample.config "https://down/token"
                          authorization_code "AUTHCODE");
                 ConsoleTrace (JS.TypeError "fetch failed") ] |}).
Proof.
  apply (authenticate_stops_at_token_failure (Sample.runtime 0) Sample.config
           {[ "code" := "AUTHCODE" ]} authorization_code "AUTHCODE"
           "https://down/token" Sample.down (JS.TypeError "fetch failed")).
  - left. split; reflexivity.
  - reflexivity.
  - discriminate.
  - left. reflexivity.
Defined.

Lemma authenticate_exchanges_before_userinfo_lookup_witness :
  authenticate (Sample.runtime 0) Sample.config Sample.with_code
    Sample.without_userinfo
  = (inl (JS.Error "No OpenID configuration for strategy -oidc."),
     {| configuration := configuration Sample.without_userinfo;
        log := [ Fetch (token_request Sample.config "https://idp/token"
                          authorization_code "AUTHCODE") ] |}).
Proof.
  apply (authenticate_exchanges_before_userinfo_lookup (Sample.runtime 0)
           Sample.config {[ "code" := "AUTHCODE" ]} authorization_code "AUTHCODE"
           "https://idp/token" Sample.without_userinfo
           {| res_status := 200; res_body := "token" |} Sample.AT1).
  - left. split; reflexivity.
  - reflexivity.
  - discriminate.
  - reflexivity.
  - reflexivity.
  - reflexivity.
Defined.

Lemma authenticate_stops_at_userinfo_failure_witness :
  authenticate (Sample.runtime 0) Sample.config Sample.with_code
    Sample.userinfo_down
  = (inl (JS.Error "UserInfo endpoint responded with a non-OK status code."),
     {| configuration := configuration Sample.userinfo_down;
        log := [ Fetch (token_request Sample.config "https://idp/token"
                          authorization_code "AUTHCODE");
                 Fetch (userinfo_request "https://down/userinfo" Sample.AT1);
                 ConsoleTrace (JS.TypeError "fetch failed") ] |}).
Proof.
  apply (authenticate_stops_at_userinfo_failure (Sample.runtime 0) Sample.config
           {[ "code" := "AUTHCODE" ]} authorization_code "AUTHCODE"
           "https://idp/token" "https://down/userinfo" Sample.userinfo_down
           {| res_status := 200; res_body := "token" |} Sample.AT1
           (JS.TypeError "fetch failed")).
  - left. split; reflexivity.
  - reflexivity.
  - discriminate.
  - reflexivity.
  - discriminate.
  - reflexivity.
  - reflexivity.
  - left. reflexivity.
Defined.

Lemma authenticate_verify_throws_witness :
  authenticate (Sample.runtime 0) Sample.rejecting Sample.with_code
    Sample.configured
  = (inl (JS.Error "unknown user"),
     {| configuration := Sample.idp;
        log :=
          [ Fetch (token_request Sample.rejecting "https://idp/token"
                     authorization_code "AUTHCODE");
            Fetch (userinfo_request "https://idp/userinfo" Sample.AT1);
            Verify Sample.with_code
              {| Data.token := Sample.AT1;
                 Data.userInfo := Sample.u1;
                 Data.expiresAt :=
                   Some (expiry (Sample.runtime 0) 0 Sample.AT1) |} ] |}).
Proof.
  apply (authenticate_verify_throws (Sample.runtime 0) Sample.rejecting
           {[ "code" := "AUTHCODE" ]} authorization_code "AUTHCODE"
           "https://idp/token" "https://idp/userinfo" Sample.configured
           {| res_status := 200; res_body := "token" |}
           {| res_status := 200; res_body := "userinfo" |}
           Sample.AT1 Sample.u1 (JS.Error "unknown user"));
    solve [reflexivity | discriminate | left; split; reflexivity].
Defined.


(** ** What the strategy does not look at *)

Section Status.

Context {V : Type}.
Variables rt rt' : Runtime.
Variable config : Config.t V.
Hypothesis Halike : alike_but_status rt rt'.

Lemma token_alike (grantType : GrantType) (code : string) (s : State) :
  token rt config grantType code s = token rt' config grantType code s.
Proof.
  unfold token. run.
  destruct (JS.truthy _); simpl; [| reflexivity].
  pose proof (alike_fetch rt rt' Halike (log s)
    (token_request config
       (default "" (OpenIDConfiguration.token_endpoint (configuration s)))
       grantType code)) as Hfetch.
  destruct (fetch rt _ _) as [e | res], (fetch rt' _ _) as [e' | res'];
    simpl; try contradiction.
  { subst e'. reflexivity. }
  rewrite (alike_token rt rt' Halike res res' Hfetch). reflexivity.
Qed.

Lemma userinfo_alike (tok : Token.t) (s : State) :
  userinfo rt tok s = userinfo rt' tok s.
Proof.
  unfold userinfo. run.
  destruct (JS.truthy _); simpl; [| reflexivity].
  pose proof (alike_fetch rt rt' Halike (log s)
    (userinfo_request
       (default "" (OpenIDConfiguration.userinfo_endpoint (configuration s)))
       tok)) as Hfetch.
  destruct (fetch rt _ _) as [e | res], (fetch rt' _ _) as [e' | res'];
    simpl; try contradiction.
  { subst e'. reflexivity. }
  rewrite (alike_userinfo rt rt' Halike res res' Hfetch). reflexivity.
Qed.

Lemma expiry_alike (now : Z) (tok : Token.t) : expiry rt now tok = expiry rt' now tok.
Proof.
  unfold expiry, Date.setSeconds, Date.getSeconds, Date.LocalTime, Date.UTC.
  rewrite !(alike_zone rt rt' Halike). reflexivity.
Qed.

Lemma redirectUrl_alike (s : State) :
  redirectUrl rt config s = redirectUrl rt' config s.
Proof.
  unfold redirectUrl. run. rewrite (alike_URL rt rt' Halike). reflexivity.
Qed.

Lemma exchange_and_verify_alike (context : KredsContext) (grantType : GrantType)
    (code : string) (s : State) :
  exchange_and_verify rt config context grantType code s
  = exchange_and_verify rt' config context grantType code s.
Proof.
  unfold exchange_and_verify.
  unfold mbind, M_bind, bind, mret, M_ret, ret, get_log, do_verify, emit, lift.
  rewrite token_alike.
  destruct (token rt' config grantType code s) as [[e | tok] s1]; [reflexivity |].
  rewrite userinfo_alike.
  destruct (userinfo rt' tok s1) as [[e | ui] s2]; [reflexivity |].
  simpl. rewrite (alike_now rt rt' Halike), expiry_alike. reflexivity.
Qed.

(** X17. The status of a response is never looked at: in two runtimes
    that differ only in the statuses of the responses, [authenticate]
    does the same and returns the same.  A 500 whose body decodes is
    taken for a token, or for the user's claims. *)
Theorem authenticate_ignores_status (context : KredsContext) (s : State) :
  authenticate rt config context s = authenticate rt' config context s.
Proof.
  destruct context as [p].
  destruct (authenticate_cases rt config {| payload := p |} s)
    as [[Hfalsy ->] | [(Htruthy & Hprim & message & Hrt)
       | [(props & Hobject & Hcode & Hrefresh & ->)
         | (props & g & code & Hobject & Hsel & ->)]]]; simpl in *.
  - symmetry. apply authenticate_falsy. assumption.
  - clear Hrt. unfold authenticate. cbn [payload]. rewrite Htruthy. cbn [negb].
    destruct p; try reflexivity.
    exfalso. eapply Hprim. reflexivity.
  - subst p. symmetry. apply authenticate_neither; assumption.
  - subst p. rewrite exchange_and_verify_alike. symmetry.
    destruct Hsel as [[Hcode ->] | (Hcode & Hrefresh & ->)].
    + apply authenticate_code. assumption.
    + apply authenticate_refresh_token; assumption.
Qed.

End Status.

Lemma authenticate_ignores_status_witness :
  authenticate (Sample.runtime 0) Sample.config Sample.with_code Sample.configured
  = authenticate Sample.runtime_500 Sample.config Sample.with_code Sample.configured.
Proof.
  apply (authenticate_ignores_status (Sample.runtime 0) Sample.runtime_500
           Sample.config).
  split; try reflexivity.
  - intros l req. simpl. unfold Sample.network, Sample.network_500.
    destruct (String.eqb (req_url req) _); [reflexivity |].
    destruct (String.eqb (req_url req) _); [reflexivity |].
    destruct (String.eqb (req_url req) _); reflexivity.
  - intros res res' Hbody. simpl. unfold Sample.json. rewrite Hbody. reflexivity.
  - intros res res' Hbody. simpl. unfold Sample.json. rewrite Hbody. reflexivity.
  - intros res res' Hbody. simpl. unfold Sample.json. rewrite Hbody. reflexivity.
Defined.

(** X18. A truthy payload that is not an object, such as a non-empty
    string, a number other than zero or [true], makes [authenticate]
    throw a [TypeError] at the [in] operator rather than "Not supported
    yet."; nothing is sent. *)
Theorem authenticate_payload_not_an_object {V : Type} (rt : Runtime)
    (config : Config.t V) (value : JS.Value) (s : State) :
  (exists str, value = JS.Str str /\ str <> "")
  \/ (exists n, value = JS.Number n /\ n <> 0)
  \/ value = JS.Boolean true ->
  exists message,
    authenticate rt config {| payload := value |} s
    = (inl (JS.TypeError message), s)
    /\ JS.TypeError message <> JS.Error "Not supported yet.".
Proof.
  intros Hvalue.
  assert (JS.ToBoolean value = true /\ forall props, value <> JS.Object props)
    as [Htruthy Hprim].
  { destruct Hvalue as [(str & -> & Hne) | [(n & -> & Hne) | ->]]; simpl.
    - split; [| discriminate]. destruct (String.eqb_spec str ""); [contradiction | reflexivity].
    - split; [| discriminate]. destruct (Z.eqb_spec n 0); [contradiction | reflexivity].
    - split; [reflexivity | discriminate]. }
  destruct (authenticate_primitive_payload rt config {| payload := value |} s
              Htruthy Hprim) as [message ->].
  exists message. split; [reflexivity | discriminate].
Qed.

Lemma authenticate_payload_not_an_object_witness :
  exists message,
    authenticate (Sample.runtime 0) Sample.config
      {| payload := JS.Str "code=AUTHCODE" |} Sample.configured
    = (inl (JS.TypeError message), Sample.configured)
    /\ JS.TypeError message <> JS.Error "Not supported yet.".
Proof.
  apply (authenticate_payload_not_an_object (Sample.runtime 0) Sample.config
           (JS.Str "code=AUTHCODE") Sample.configured).
  left. exists "code=AUTHCODE". split; [reflexivity | discriminate].
Defined.

(** ** The query of the authorization URL *)

Lemma count_char_app (c : ascii) (a b : string) :
  count_char c (a ++ b) = (count_char c a + count_char c b)%nat.
Proof.
  induction a as [| c' a IH]; simpl; [reflexivity |]. rewrite IH. lia.
Qed.

(** No byte is encoded into a structural one. *)
Lemma encode_byte_plain (c d : ascii) :
  structural d ->
  count_char d
    (if Ascii.eqb c " " then "+"
     else if FormUrlEncoded.is_plain c then String c ""
     else FormUrlEncoded.percent_encode c) = 0%nat.
Proof.
  intros [-> | [-> | [-> | [-> | ->]]]];
    destruct c as [[] [] [] [] [] [] [] []]; vm_compute; reflexivity.
Qed.

Lemma encode_plain (d : ascii) (s : string) :
  structural d -> count_char d (FormUrlEncoded.encode s) = 0%nat.
Proof.
  intros Hd. induction s as [| c s IH]; [reflexivity |].
  cbn [FormUrlEncoded.encode].
  rewrite count_char_app, IH, (encode_byte_plain c d Hd). reflexivity.
Qed.

Lemma count_serialize (d : ascii) (l : URLSearchParams) :
  structural d ->
  count_char d (FormUrlEncoded.serialize l)
  = ((if Ascii.eqb d "=" then length l else 0)
     + (if Ascii.eqb d "&" then pred (length l) else 0))%nat.
Proof.
  intros Hd. unfold FormUrlEncoded.serialize.
  assert (forall kv : string * string,
            count_char d (FormUrlEncoded.encode (fst kv) ++ "="
                          ++ FormUrlEncoded.encode (snd kv))
            = if Ascii.eqb d "=" then 1%nat else 0%nat) as Hpair.
  { intros kv. rewrite !count_char_app, !encode_plain by assumption.
    simpl. destruct (Ascii.eqb d "="); reflexivity. }
  induction l as [| kv l IH]; simpl.
  { destruct (Ascii.eqb d "="), (Ascii.eqb d "&"); reflexivity. }
  destruct l as [| kv' l].
  { simpl. rewrite Hpair. destruct (Ascii.eqb d "="), (Ascii.eqb d "&"); reflexivity. }
  change (map _ (kv' :: l)) with
    (map (fun kv => FormUrlEncoded.encode (fst kv) ++ "="
                    ++ FormUrlEncoded.encode (snd kv)) (kv' :: l)) in *.
  cbn [map String.concat] in *.
  rewrite count_char_app, Hpair, count_char_app.
  cbn [map String.concat length] in IH. rewrite IH.
  simpl. destruct (Ascii.eqb d "="), (Ascii.eqb d "&"); lia.
Qed.

(** X19. Whatever bytes the client id, the scopes and the redirect URL
    contain, they cannot add to or cut the query of the authorization
    URL: after the parameters the endpoint had, the query has exactly
    four more [name=value] pairs, separated by [&], and holds no [#], no
    [?] and no space. *)
Theorem authorization_query_shape {V : Type} (rt : Runtime) (config : Config.t V)
    (s : State) (endpoint : string) (url : URL.t) :
  OpenIDConfiguration.authorization_endpoint (configuration s) = Some endpoint ->
  endpoint <> "" ->
  new_URL rt endpoint None = inr url ->
  exists query : string,
    fst (redirectUrl rt config s)
    = inr (Some (URL.base url ++ "?" ++ query
                 ++ match URL.fragment url with
                    | Some f => "#" ++ f
                    | None => ""
                    end))
    /\ count_char "=" query = (length (URL.searchParams url) + 4)%nat
    /\ count_char "&" query = (length (URL.searchParams url) + 3)%nat
    /\ count_char "#" query = 0%nat
    /\ count_char "?" query = 0%nat
    /\ count_char " " query = 0%nat.
Proof.
  intros Hendpoint Hne Hparse.
  rewrite (redirectUrl_present rt config s endpoint url Hendpoint Hne Hparse).
  eexists. split; [reflexivity |].
  rewrite !count_serialize by (unfold structural; auto).
  rewrite length_app. simpl. repeat split; lia.
Qed.

Lemma authorization_query_shape_witness :
  exists query : string,
    fst (redirectUrl (Sample.runtime 0) Sample.config Sample.configured)
    = inr (Some ("https://idp/auth" ++ "?" ++ query ++ ""))
    /\ count_char "=" query = 4%nat
    /\ count_char "&" query = 3%nat
    /\ count_char "#" query = 0%nat
    /\ count_char "?" query = 0%nat
    /\ count_char " " query = 0%nat.
Proof.
  apply (authorization_query_shape (Sample.runtime 0) Sample.config
           Sample.configured "https://idp/auth"
           (Sample.plain_url "https://idp/auth") eq_refl ltac:(discriminate)
           eq_refl).
Defined.
